(** * libs/hwui/Glop.h: the draw-operation descriptor of the HWUI renderer

    [Glop.h] declares one enumeration ([VertexAttribFlags]) and one plain
    aggregate ([struct Glop]) with five nested groups.  The header has no
    member functions: what it fixes is the shape of the data, the types of
    the fields, the storage shared by the two arms of [union Filter], and
    the special member functions the language provides because the struct
    declares none of its own.  This development embeds exactly that and
    states the properties of the record against it. *)

From Stdlib Require Import ZArith Lia.
From stdpp Require Import base option list.

Local Open Scope Z_scope.

(** ** Scalar types of the header

    Integers are mathematical integers together with the range of their
    C type.  A [float] is kept as its IEEE-754 binary32 encoding, the 32
    bits that the struct stores; the header never computes with floats, it
    only stores and reloads them. *)

Definition float := Z.
Definition GLuint := Z.
Definition GLenum := Z.
Definition GLsizei := Z.
Definition int := Z.
(** A [const void*] or [Program*]: an address, [nullptr] being address 0. *)
Definition ptr := Z.

Definition nullptr : ptr := 0.

Definition is_uint32 (z : Z) : bool := (0 <=? z) && (z <? 2 ^ 32).
Definition is_int32 (z : Z) : bool := (- 2 ^ 31 <=? z) && (z <? 2 ^ 31).
Definition is_float (z : float) : bool := is_uint32 z.
Definition is_ptr (p : ptr) : bool := 0 <=? p.

(** binary32 encodings of the literals used by the scenarios *)
Definition f0_0 : float := 0x00000000.
Definition f0_5 : float := 0x3F000000.
Definition f1_0 : float := 0x3F800000.
Definition f100_0 : float := 0x42C80000.

(** <GLES2/gl2.h> *)
Definition GL_POINTS : GLenum := 0x0000.
Definition GL_TRIANGLES : GLenum := 0x0004.
Definition GL_TRIANGLE_STRIP : GLenum := 0x0005.
Definition GL_ZERO : GLenum := 0.
Definition GL_ONE : GLenum := 1.
Definition GL_SRC_ALPHA : GLenum := 0x0302.
Definition GL_ONE_MINUS_SRC_ALPHA : GLenum := 0x0303.

(** ** [enum VertexAttribFlags] (Glop.h:39-45) *)

Module VertexAttribFlags.

Definition kNone_Attrib : Z := 0.
Definition kTextureCoord_Attrib : Z := Z.shiftl 1 0.
Definition kColor_Attrib : Z := Z.shiftl 1 1.
Definition kAlpha_Attrib : Z := Z.shiftl 1 2.

(** The enumerator list, in declaration order. *)
Definition enumerators : list Z :=
  [kNone_Attrib; kTextureCoord_Attrib; kColor_Attrib; kAlpha_Attrib].

(** The enumeration has no fixed underlying type and no negative
    enumerator, so its values are those of the smallest bit-field that
    holds the largest enumerator: [0 .. 2^M - 1]. *)
Definition bmax : Z := 2 ^ (Z.log2 (foldr Z.max 0 enumerators) + 1) - 1.

Definition representable (v : Z) : bool := (0 <=? v) && (v <=? bmax).

(** [flags & f] used as a condition. *)
Definition has (flags f : Z) : bool := negb (Z.land flags f =? 0).

(** The flag set built by or-ing the enumerators of the enabled
    attributes. *)
Definition of_attribs (tex col alpha : bool) : Z :=
  Z.lor (if tex then kTextureCoord_Attrib else kNone_Attrib)
    (Z.lor (if col then kColor_Attrib else kNone_Attrib)
           (if alpha then kAlpha_Attrib else kNone_Attrib)).

End VertexAttribFlags.


(** ** Types declared in headers that Glop.h includes *)

(** Modelled from the spec: [Rect] comes from Rect.h, which is not part of
    the sources at hand.  The spec describes the bounds as an axis-aligned
    rectangle written (left, top, right, bottom), e.g. (0,0,100,100), and
    lists it among the fields that default construction zeroes. *)
Module Rect.
Record t := mk { left : float; top : float; right : float; bottom : float }.

Definition ctor : t := mk f0_0 f0_0 f0_0 f0_0.

Definition wf (r : t) : bool :=
  is_float (left r) && is_float (top r) && is_float (right r) && is_float (bottom r).
End Rect.

(** Modelled from the spec: [Matrix4] comes from Matrix.h, which is not part
    of the sources at hand.  The spec describes it as a 4x4 matrix of floats
    whose default construction yields the identity. *)
Module Matrix4.
Definition t := list float.

Definition identity : t :=
  [ f1_0; f0_0; f0_0; f0_0;
    f0_0; f1_0; f0_0; f0_0;
    f0_0; f0_0; f1_0; f0_0;
    f0_0; f0_0; f0_0; f1_0 ].

Definition ctor : t := identity.

Definition wf (m : t) : bool := (length m =? 16)%nat && forallb is_float m.
End Matrix4.

(** Modelled from the spec: [ProgramDescription::ColorFilterMode] is declared
    by the program-description header, which is not part of the sources at
    hand.  The spec gives the tags as none, matrix and blend-mode colour. *)
Module ProgramDescription.
Inductive ColorFilterMode := kColorNone | kColorMatrix | kColorBlend.

(** The first enumerator has value 0: it is what zero-initialization
    leaves in a field of this type. *)
Definition ColorFilterMode_zero : ColorFilterMode := kColorNone.
End ProgramDescription.

(** ** [struct Glop] (Glop.h:57-117) *)

Module Glop.

(** [struct FloatColor { float a, r, g, b; }] *)
Module FloatColor.
Record t := mk { a : float; r : float; g : float; b : float }.

(** The members, in declaration order. *)
Inductive member := m_a | m_r | m_g | m_b.

Definition members : list member := [m_a; m_r; m_g; m_b].

(** Offset of a member in units of [sizeof(float)]: four members of one
    type, laid out in declaration order without padding. *)
Definition offset (m : member) : nat :=
  match m with m_a => 0 | m_r => 1 | m_g => 2 | m_b => 3 end%nat.

Definition size : nat := length members.

Definition get (m : member) (c : t) : float :=
  match m with m_a => a c | m_r => r c | m_g => g c | m_b => b c end.

Definition set (m : member) (x : float) (c : t) : t :=
  match m with
  | m_a => mk x (r c) (g c) (b c)
  | m_r => mk (a c) x (g c) (b c)
  | m_g => mk (a c) (r c) x (b c)
  | m_b => mk (a c) (r c) (g c) x
  end.

(** Object representation: the cells occupied by a colour. *)
Definition store (c : t) : list float := (λ m, get m c) <$> members.

(** The colour found at the start of a run of cells. *)
Definition load (cells : list float) : t :=
  mk (cells !!! offset m_a) (cells !!! offset m_r)
     (cells !!! offset m_g) (cells !!! offset m_b).

Definition zero : t := mk f0_0 f0_0 f0_0 f0_0.

Definition wf (c : t) : bool := forallb is_float (store c).
End FloatColor.

(** [struct Mesh] (Glop.h:70-79) *)
Module Mesh.
Record t := mk {
  vertexFlags : Z;
  primitiveMode : GLuint;
  vertexBufferObject : GLuint;
  indexBufferObject : GLuint;
  vertices : ptr;
  indices : ptr;
  vertexCount : int;
  stride : GLsizei
}.

Definition zero : t := mk 0 0 0 0 nullptr nullptr 0 0.

(** Every field holds a value of its declared type. *)
Definition wf (m : t) : bool :=
  VertexAttribFlags.representable (vertexFlags m)
  && is_uint32 (primitiveMode m)
  && is_uint32 (vertexBufferObject m)
  && is_uint32 (indexBufferObject m)
  && is_ptr (vertices m)
  && is_ptr (indices m)
  && is_int32 (vertexCount m)
  && is_int32 (stride m).

Definition set_vertexFlags v m :=
  mk v (primitiveMode m) (vertexBufferObject m) (indexBufferObject m)
     (vertices m) (indices m) (vertexCount m) (stride m).
Definition set_primitiveMode v m :=
  mk (vertexFlags m) v (vertexBufferObject m) (indexBufferObject m)
     (vertices m) (indices m) (vertexCount m) (stride m).
Definition set_vertexBufferObject v m :=
  mk (vertexFlags m) (primitiveMode m) v (indexBufferObject m)
     (vertices m) (indices m) (vertexCount m) (stride m).
Definition set_indexBufferObject v m :=
  mk (vertexFlags m) (primitiveMode m) (vertexBufferObject m) v
     (vertices m) (indices m) (vertexCount m) (stride m).
Definition set_vertices v m :=
  mk (vertexFlags m) (primitiveMode m) (vertexBufferObject m) (indexBufferObject m)
     v (indices m) (vertexCount m) (stride m).
Definition set_indices v m :=
  mk (vertexFlags m) (primitiveMode m) (vertexBufferObject m) (indexBufferObject m)
     (vertices m) v (vertexCount m) (stride m).
Definition set_vertexCount v m :=
  mk (vertexFlags m) (primitiveMode m) (vertexBufferObject m) (indexBufferObject m)
     (vertices m) (indices m) v (stride m).
Definition set_stride v m :=
  mk (vertexFlags m) (primitiveMode m) (vertexBufferObject m) (indexBufferObject m)
     (vertices m) (indices m) (vertexCount m) v.

(** The comment on the struct: "GL_TRIANGLES and GL_TRIANGLE_STRIP
    supported". *)
Definition supported_primitiveMode (m : t) : bool :=
  (primitiveMode m =? GL_TRIANGLES) || (primitiveMode m =? GL_TRIANGLE_STRIP).

(** The comment on the struct: "buffer objects and void*s are mutually
    exclusive, indices are optional".  One channel carries exactly one
    source; the index channel may carry none. *)
Definition exactly_one (bufferObject : GLuint) (p : ptr) : bool :=
  xorb (negb (bufferObject =? 0)) (negb (p =? nullptr)).
Definition neither (bufferObject : GLuint) (p : ptr) : bool :=
  (bufferObject =? 0) && (p =? nullptr).

Definition mutually_exclusive (m : t) : bool :=
  exactly_one (vertexBufferObject m) (vertices m)
  && (exactly_one (indexBufferObject m) (indices m)
      || neither (indexBufferObject m) (indices m)).
End Mesh.

(** [union Filter] (Glop.h:91-97).  The two arms occupy the same storage:
    [struct Matrix { float matrix[16]; float vector[4]; }] and a
    [FloatColor], both starting at offset 0.  The union is kept as its
    storage, a run of [float] cells, and each arm is a view of it. *)
Module Filter.

Module Matrix.
Record t := mk { matrix : list float; vector : list float }.

Definition matrix_len : nat := 16.
Definition vector_len : nat := 4.
Definition size : nat := matrix_len + vector_len.

(** A value of the struct has exactly the declared array lengths. *)
Definition wf (m : t) : bool :=
  (length (matrix m) =? matrix_len)%nat && (length (vector m) =? vector_len)%nat
  && forallb is_float (matrix m) && forallb is_float (vector m).

Definition store (m : t) : list float := matrix m ++ vector m.

Definition load (cells : list float) : t :=
  mk (take matrix_len cells) (take vector_len (drop matrix_len cells)).
End Matrix.

(** [sizeof(Filter) / sizeof(float)]: the size of the larger arm. *)
Definition size : nat := Nat.max Matrix.size FloatColor.size.

Definition t := list float.

Definition zero : t := replicate size f0_0.

Definition wf (u : t) : bool := (length u =? size)%nat && forallb is_float u.

(** [filter.matrix] read and written as a whole *)
Definition get_matrix (u : t) : Matrix.t := Matrix.load u.
Definition set_matrix (m : Matrix.t) (u : t) : t :=
  Matrix.store m ++ drop Matrix.size u.

(** [filter.color] read and written as a whole *)
Definition get_color (u : t) : FloatColor.t := FloatColor.load u.
Definition set_color (c : FloatColor.t) (u : t) : t :=
  FloatColor.store c ++ drop FloatColor.size u.

(** [filter.matrix.matrix[i]] and [filter.matrix.vector[i]].  An index past
    the end of the array has no defined behaviour in the source;
    here it yields [None]. *)
Definition get_matrix_matrix (i : nat) (u : t) : option float :=
  if (i <? Matrix.matrix_len)%nat then u !! i else None.
Definition set_matrix_matrix (i : nat) (x : float) (u : t) : option t :=
  if (i <? Matrix.matrix_len)%nat then Some (<[i := x]> u) else None.
Definition get_matrix_vector (i : nat) (u : t) : option float :=
  if (i <? Matrix.vector_len)%nat then u !! (Matrix.matrix_len + i)%nat else None.
Definition set_matrix_vector (i : nat) (x : float) (u : t) : option t :=
  if (i <? Matrix.vector_len)%nat
  then Some (<[(Matrix.matrix_len + i)%nat := x]> u) else None.

(** [filter.color.a] and the like *)
Definition get_color_member (m : FloatColor.member) (u : t) : float :=
  u !!! FloatColor.offset m.
Definition set_color_member (m : FloatColor.member) (x : float) (u : t) : t :=
  <[FloatColor.offset m := x]> u.
End Filter.

(** [struct Fill] (Glop.h:81-98) *)
Module Fill.
Record t := mk {
  program : ptr;
  color : FloatColor.t;
  filterMode : ProgramDescription.ColorFilterMode;
  filter : Filter.t
}.

Definition zero : t :=
  mk nullptr FloatColor.zero ProgramDescription.ColorFilterMode_zero Filter.zero.

Definition wf (f : t) : bool :=
  is_ptr (program f) && FloatColor.wf (color f) && Filter.wf (filter f).

Definition set_program v f := mk v (color f) (filterMode f) (filter f).
Definition set_color v f := mk (program f) v (filterMode f) (filter f).
Definition set_filterMode v f := mk (program f) (color f) v (filter f).
Definition set_filter v f := mk (program f) (color f) (filterMode f) v.
End Fill.

(** [struct Transform] (Glop.h:100-105) *)
Module Transform.
Record t := mk {
  ortho : Matrix4.t;
  modelView : Matrix4.t;
  canvas : Matrix4.t;
  fudgingOffset : bool
}.

Definition wf (x : t) : bool :=
  Matrix4.wf (ortho x) && Matrix4.wf (modelView x) && Matrix4.wf (canvas x).

Definition set_ortho v x := mk v (modelView x) (canvas x) (fudgingOffset x).
Definition set_modelView v x := mk (ortho x) v (canvas x) (fudgingOffset x).
Definition set_canvas v x := mk (ortho x) (modelView x) v (fudgingOffset x).
Definition set_fudgingOffset v x := mk (ortho x) (modelView x) (canvas x) v.
End Transform.

(** [struct Blend] (Glop.h:107-110) *)
Module Blend.
Record t := mk { src : GLenum; dst : GLenum }.

Definition zero : t := mk 0 0.

Definition wf (x : t) : bool := is_uint32 (src x) && is_uint32 (dst x).

Definition set_src v x := mk v (dst x).
Definition set_dst v x := mk (src x) v.
End Blend.

Record t := mk {
  bounds : Rect.t;
  mesh : Mesh.t;
  fill : Fill.t;
  transform : Transform.t;
  blend : Blend.t
}.

(** Every field holds a value of its declared type. *)
Definition wf (g : t) : bool :=
  Rect.wf (bounds g) && Mesh.wf (mesh g) && Fill.wf (fill g)
  && Transform.wf (transform g) && Blend.wf (blend g).

Definition set_bounds v g := mk v (mesh g) (fill g) (transform g) (blend g).
Definition set_mesh v g := mk (bounds g) v (fill g) (transform g) (blend g).
Definition set_fill v g := mk (bounds g) (mesh g) v (transform g) (blend g).
Definition set_transform v g := mk (bounds g) (mesh g) (fill g) v (blend g).
Definition set_blend v g := mk (bounds g) (mesh g) (fill g) (transform g) v.

(** *** Special member functions

    The struct declares no constructor, no assignment operator and no
    default member initializer, so all of them are the implicit ones. *)

(** Default-initialization, [Glop glop;].  The implicit default
    constructor default-initializes each member: [bounds] and the three
    matrices run the constructor of their class; every other member is a
    scalar, a pointer, an enumeration or an aggregate of those, for which
    default-initialization does nothing, so it keeps whatever the storage
    held before, here [mem]. *)
Definition default_init (mem : t) : t :=
  mk Rect.ctor
     (mesh mem)
     (fill mem)
     (Transform.mk Matrix4.ctor Matrix4.ctor Matrix4.ctor
                   (Transform.fudgingOffset (transform mem)))
     (blend mem).

(** Zero-initialized storage: every scalar 0, every pointer null, [false],
    the first enumerator. *)
Definition zero_init : t :=
  mk (Rect.mk 0 0 0 0)
     Mesh.zero
     Fill.zero
     (Transform.mk (replicate 16 0) (replicate 16 0) (replicate 16 0) false)
     Blend.zero.

(** Value-initialization, [Glop()] or [Glop glop{}]: the storage is
    zero-initialized and then, the implicit default constructor being
    non-trivial, default-initialized. *)
Definition value_init : t := default_init zero_init.

(** The implicit copy constructor, [Glop b(a);]: member-wise copy; for the
    union, a copy of its storage. *)
Definition copy_ctor (other : t) : t :=
  mk (bounds other) (mesh other) (fill other) (transform other) (blend other).

(** The implicit copy assignment, [b = a;]: member-wise assignment to
    [self], whose previous members are all replaced. *)
Definition copy_assign (self other : t) : t :=
  set_blend (blend other)
    (set_transform (transform other)
      (set_fill (fill other)
        (set_mesh (mesh other)
          (set_bounds (bounds other) self)))).

(** *** Field access

    The struct has no methods: the producer fills a descriptor by
    assigning to its fields.  [FieldWrite] lists the assignments the
    declarations allow, one constructor per assignable field (whole
    sub-aggregates of [fill] included), and [write] performs one. *)

Inductive group := g_bounds | g_mesh | g_fill | g_transform | g_blend.

Inductive FieldWrite :=
| W_bounds (v : Rect.t)
| W_mesh_vertexFlags (v : Z)
| W_mesh_primitiveMode (v : GLuint)
| W_mesh_vertexBufferObject (v : GLuint)
| W_mesh_indexBufferObject (v : GLuint)
| W_mesh_vertices (v : ptr)
| W_mesh_indices (v : ptr)
| W_mesh_vertexCount (v : int)
| W_mesh_stride (v : GLsizei)
| W_fill_program (v : ptr)
| W_fill_color (v : FloatColor.t)
| W_fill_color_member (m : FloatColor.member) (x : float)
| W_fill_filterMode (v : ProgramDescription.ColorFilterMode)
| W_fill_filter_matrix (v : Filter.Matrix.t)
| W_fill_filter_matrix_matrix (i : nat) (x : float)
| W_fill_filter_matrix_vector (i : nat) (x : float)
| W_fill_filter_color (v : FloatColor.t)
| W_fill_filter_color_member (m : FloatColor.member) (x : float)
| W_transform_ortho (v : Matrix4.t)
| W_transform_modelView (v : Matrix4.t)
| W_transform_canvas (v : Matrix4.t)
| W_transform_fudgingOffset (v : bool)
| W_blend_src (v : GLenum)
| W_blend_dst (v : GLenum).

Definition group_of (w : FieldWrite) : group :=
  match w with
  | W_bounds _ => g_bounds
  | W_mesh_vertexFlags _ | W_mesh_primitiveMode _ | W_mesh_vertexBufferObject _
  | W_mesh_indexBufferObject _ | W_mesh_vertices _ | W_mesh_indices _
  | W_mesh_vertexCount _ | W_mesh_stride _ => g_mesh
  | W_fill_program _ | W_fill_color _ | W_fill_color_member _ _
  | W_fill_filterMode _ | W_fill_filter_matrix _ | W_fill_filter_matrix_matrix _ _
  | W_fill_filter_matrix_vector _ _ | W_fill_filter_color _
  | W_fill_filter_color_member _ _ => g_fill
  | W_transform_ortho _ | W_transform_modelView _ | W_transform_canvas _
  | W_transform_fudgingOffset _ => g_transform
  | W_blend_src _ | W_blend_dst _ => g_blend
  end.

(** The assignments that store into [fill.filter]. *)
Definition writes_filter (w : FieldWrite) : bool :=
  match w with
  | W_fill_filter_matrix _ | W_fill_filter_matrix_matrix _ _
  | W_fill_filter_matrix_vector _ _ | W_fill_filter_color _
  | W_fill_filter_color_member _ _ => true
  | _ => false
  end.

(** The argument of the assignment is a value of the field's type and an
    array subscript is within the array. *)
Definition write_ok (w : FieldWrite) : bool :=
  match w with
  | W_bounds v => Rect.wf v
  | W_mesh_vertexFlags v => VertexAttribFlags.representable v
  | W_mesh_primitiveMode v | W_mesh_vertexBufferObject v
  | W_mesh_indexBufferObject v | W_blend_src v | W_blend_dst v => is_uint32 v
  | W_mesh_vertices v | W_mesh_indices v | W_fill_program v => is_ptr v
  | W_mesh_vertexCount v | W_mesh_stride v => is_int32 v
  | W_fill_color v | W_fill_filter_color v => FloatColor.wf v
  | W_fill_color_member _ x | W_fill_filter_color_member _ x => is_float x
  | W_fill_filterMode _ | W_transform_fudgingOffset _ => true
  | W_fill_filter_matrix v => Filter.Matrix.wf v
  | W_fill_filter_matrix_matrix i x =>
      (i <? Filter.Matrix.matrix_len)%nat && is_float x
  | W_fill_filter_matrix_vector i x =>
      (i <? Filter.Matrix.vector_len)%nat && is_float x
  | W_transform_ortho v | W_transform_modelView v | W_transform_canvas v =>
      Matrix4.wf v
  end.

Definition write (w : FieldWrite) (g : t) : option t :=
  match w with
  | W_bounds v => Some (set_bounds v g)
  | W_mesh_vertexFlags v => Some (set_mesh (Mesh.set_vertexFlags v (mesh g)) g)
  | W_mesh_primitiveMode v => Some (set_mesh (Mesh.set_primitiveMode v (mesh g)) g)
  | W_mesh_vertexBufferObject v =>
      Some (set_mesh (Mesh.set_vertexBufferObject v (mesh g)) g)
  | W_mesh_indexBufferObject v =>
      Some (set_mesh (Mesh.set_indexBufferObject v (mesh g)) g)
  | W_mesh_vertices v => Some (set_mesh (Mesh.set_vertices v (mesh g)) g)
  | W_mesh_indices v => Some (set_mesh (Mesh.set_indices v (mesh g)) g)
  | W_mesh_vertexCount v => Some (set_mesh (Mesh.set_vertexCount v (mesh g)) g)
  | W_mesh_stride v => Some (set_mesh (Mesh.set_stride v (mesh g)) g)
  | W_fill_program v => Some (set_fill (Fill.set_program v (fill g)) g)
  | W_fill_color v => Some (set_fill (Fill.set_color v (fill g)) g)
  | W_fill_color_member m x =>
      Some (set_fill
              (Fill.set_color (FloatColor.set m x (Fill.color (fill g))) (fill g)) g)
  | W_fill_filterMode v => Some (set_fill (Fill.set_filterMode v (fill g)) g)
  | W_fill_filter_matrix v =>
      Some (set_fill
              (Fill.set_filter (Filter.set_matrix v (Fill.filter (fill g))) (fill g)) g)
  | W_fill_filter_matrix_matrix i x =>
      u ← Filter.set_matrix_matrix i x (Fill.filter (fill g));
      Some (set_fill (Fill.set_filter u (fill g)) g)
  | W_fill_filter_matrix_vector i x =>
      u ← Filter.set_matrix_vector i x (Fill.filter (fill g));
      Some (set_fill (Fill.set_filter u (fill g)) g)
  | W_fill_filter_color v =>
      Some (set_fill
              (Fill.set_filter (Filter.set_color v (Fill.filter (fill g))) (fill g)) g)
  | W_fill_filter_color_member m x =>
      Some (set_fill
              (Fill.set_filter
                 (Filter.set_color_member m x (Fill.filter (fill g))) (fill g)) g)
  | W_transform_ortho v =>
      Some (set_transform (Transform.set_ortho v (transform g)) g)
  | W_transform_modelView v =>
      Some (set_transform (Transform.set_modelView v (transform g)) g)
  | W_transform_canvas v =>
      Some (set_transform (Transform.set_canvas v (transform g)) g)
  | W_transform_fudgingOffset v =>
      Some (set_transform (Transform.set_fudgingOffset v (transform g)) g)
  | W_blend_src v => Some (set_blend (Blend.set_src v (blend g)) g)
  | W_blend_dst v => Some (set_blend (Blend.set_dst v (blend g)) g)
  end.

(** A producer is a sequence of assignments. *)
Fixpoint writes (ws : list FieldWrite) (g : t) : option t :=
  match ws with
  | [] => Some g
  | w :: ws' => g' ← write w g; writes ws' g'
  end.

End Glop.

(** ** Test inputs

    The literal descriptors of the end-to-end scenarios, built the way a
    producer builds them: from a value-initialized descriptor, by field
    assignments. *)

Module Scenarios.
Import Glop.

Definition P1 : ptr := 0x1000.
Definition clientBuf : ptr := 0x2000.

(** Scenario A: solid-colour triangle streamed from client memory. *)
Definition A_writes : list FieldWrite :=
  [ W_bounds (Rect.mk f0_0 f0_0 f100_0 f100_0);
    W_mesh_vertexFlags VertexAttribFlags.kNone_Attrib;
    W_mesh_primitiveMode GL_TRIANGLES;
    W_mesh_vertexBufferObject 0;
    W_mesh_indexBufferObject 0;
    W_mesh_vertices clientBuf;
    W_mesh_indices nullptr;
    W_mesh_vertexCount 3;
    W_mesh_stride 8;
    W_fill_program P1;
    W_fill_color (FloatColor.mk f1_0 f1_0 f0_0 f0_0);
    W_fill_filterMode ProgramDescription.kColorNone;
    W_fill_filter_color FloatColor.zero;
    W_transform_fudgingOffset false;
    W_blend_src GL_ONE;
    W_blend_dst GL_ZERO ].

(** Scenario B: textured, indexed triangle strip from buffer objects. *)
Definition B_writes : list FieldWrite :=
  [ W_mesh_vertexFlags VertexAttribFlags.kTextureCoord_Attrib;
    W_mesh_primitiveMode GL_TRIANGLE_STRIP;
    W_mesh_vertexBufferObject 17;
    W_mesh_indexBufferObject 42;
    W_mesh_vertices nullptr;
    W_mesh_indices nullptr;
    W_mesh_vertexCount 6;
    W_mesh_stride 16;
    W_blend_src GL_SRC_ALPHA;
    W_blend_dst GL_ONE_MINUS_SRC_ALPHA ].

(** Scenario C: colour-matrix filter, identity matrix and zero vector. *)
Definition C_matrix : Filter.Matrix.t :=
  Filter.Matrix.mk Matrix4.identity [f0_0; f0_0; f0_0; f0_0].
Definition C_writes : list FieldWrite :=
  [ W_fill_filterMode ProgramDescription.kColorMatrix;
    W_fill_filter_matrix C_matrix ].

(** Scenario D: blend-mode colour filter. *)
Definition D_color : FloatColor.t := FloatColor.mk f1_0 f0_5 f0_5 f0_5.
Definition D_writes : list FieldWrite :=
  [ W_fill_filterMode ProgramDescription.kColorBlend;
    W_fill_filter_color D_color ].

Definition build (ws : list FieldWrite) : Glop.t :=
  default value_init (writes ws value_init).

Definition A : Glop.t := build A_writes.
Definition B : Glop.t := build B_writes.
Definition C : Glop.t := build C_writes.
Definition D : Glop.t := build D_writes.

(** Storage that held other data before a descriptor is placed in it. *)
Definition stale : Glop.t :=
  Glop.mk (Rect.mk f1_0 f1_0 f1_0 f1_0)
          (Mesh.mk 5 3 9 9 0x3000 0x3004 (-1) 12)
          (Fill.mk 0x4000 D_color ProgramDescription.kColorBlend
                   (replicate Filter.size f0_5))
          (Transform.mk (replicate 16 f0_5) (replicate 16 f0_5)
                        (replicate 16 f0_5) true)
          (Blend.mk GL_SRC_ALPHA GL_ONE).
End Scenarios.


(** ** Predicates used in the statements *)

(** The state that a freshly constructed descriptor is expected to be in:
    no buffer object, no client data, nothing to draw, no optional
    attribute, primitive mode 0, no program, colour 0, identity matrices,
    no fudging offset, blend factors 0. *)
Definition neutral (g : Glop.t) : Prop :=
  Glop.Mesh.vertexBufferObject (Glop.mesh g) = 0
  ∧ Glop.Mesh.vertices (Glop.mesh g) = nullptr
  ∧ Glop.Mesh.indices (Glop.mesh g) = nullptr
  ∧ Glop.Mesh.vertexCount (Glop.mesh g) = 0
  ∧ Glop.Mesh.vertexFlags (Glop.mesh g) = VertexAttribFlags.kNone_Attrib
  ∧ Glop.Mesh.primitiveMode (Glop.mesh g) = 0
  ∧ Glop.Fill.program (Glop.fill g) = nullptr
  ∧ Glop.Fill.color (Glop.fill g) = Glop.FloatColor.mk f0_0 f0_0 f0_0 f0_0
  ∧ Glop.Transform.ortho (Glop.transform g) = Matrix4.identity
  ∧ Glop.Transform.modelView (Glop.transform g) = Matrix4.identity
  ∧ Glop.Transform.canvas (Glop.transform g) = Matrix4.identity
  ∧ Glop.Transform.fudgingOffset (Glop.transform g) = false
  ∧ Glop.Blend.src (Glop.blend g) = GL_ZERO
  ∧ Glop.Blend.dst (Glop.blend g) = GL_ZERO.

(** ** Vocabulary of the further properties *)

(** The enumerators that stand for an attribute, [kNone_Attrib] left out. *)
Definition optional_attribs : list Z :=
  [ VertexAttribFlags.kTextureCoord_Attrib;
    VertexAttribFlags.kColor_Attrib;
    VertexAttribFlags.kAlpha_Attrib ].

(** The assignments to one of the four fields that say where vertices and
    indices come from. *)
Definition writes_mesh_source (w : Glop.FieldWrite) : bool :=
  match w with
  | Glop.W_mesh_vertexBufferObject _ | Glop.W_mesh_indexBufferObject _
  | Glop.W_mesh_vertices _ | Glop.W_mesh_indices _ => true
  | _ => false
  end.

(** One assignment to every field that default-initialization leaves
    untouched: the eight mesh fields, the program, the colour, the filter
    mode, the whole matrix arm of the payload, the fudging-offset flag and
    the two blend factors. *)
Definition populate (m : Glop.Mesh.t) (program : ptr) (color : Glop.FloatColor.t)
    (mode : ProgramDescription.ColorFilterMode) (payload : Glop.Filter.Matrix.t)
    (fudgingOffset : bool) (b : Glop.Blend.t) : list Glop.FieldWrite :=
  [ Glop.W_mesh_vertexFlags (Glop.Mesh.vertexFlags m);
    Glop.W_mesh_primitiveMode (Glop.Mesh.primitiveMode m);
    Glop.W_mesh_vertexBufferObject (Glop.Mesh.vertexBufferObject m);
    Glop.W_mesh_indexBufferObject (Glop.Mesh.indexBufferObject m);
    Glop.W_mesh_vertices (Glop.Mesh.vertices m);
    Glop.W_mesh_indices (Glop.Mesh.indices m);
    Glop.W_mesh_vertexCount (Glop.Mesh.vertexCount m);
    Glop.W_mesh_stride (Glop.Mesh.stride m);
    Glop.W_fill_program program;
    Glop.W_fill_color color;
    Glop.W_fill_filterMode mode;
    Glop.W_fill_filter_matrix payload;
    Glop.W_transform_fudgingOffset fudgingOffset;
    Glop.W_blend_src (Glop.Blend.src b);
    Glop.W_blend_dst (Glop.Blend.dst b) ].

(** The sub-record [gr] of [g'] is the one of [g]. *)
Definition group_unchanged (gr : Glop.group) (g g' : Glop.t) : Prop :=
  match gr with
  | Glop.g_bounds => Glop.bounds g' = Glop.bounds g
  | Glop.g_mesh => Glop.mesh g' = Glop.mesh g
  | Glop.g_fill => Glop.fill g' = Glop.fill g
  | Glop.g_transform => Glop.transform g' = Glop.transform g
  | Glop.g_blend => Glop.blend g' = Glop.blend g
  end.

(** ** Assignments of whole aggregates

    Besides its fields, the declarations let a producer assign a whole
    sub-record, [a.mesh = b.mesh], or a whole descriptor, [a = b]: the
    implicit copy assignment of the aggregate, which replaces all of its
    members.  ([bounds] as a whole is already [W_bounds].) *)

Inductive Assignment :=
| A_field (w : Glop.FieldWrite)
| A_mesh (v : Glop.Mesh.t)
| A_fill (v : Glop.Fill.t)
| A_transform (v : Glop.Transform.t)
| A_blend (v : Glop.Blend.t)
| A_glop (v : Glop.t).

Definition assign (a : Assignment) (g : Glop.t) : option Glop.t :=
  match a with
  | A_field w => Glop.write w g
  | A_mesh v => Some (Glop.set_mesh v g)
  | A_fill v => Some (Glop.set_fill v g)
  | A_transform v => Some (Glop.set_transform v g)
  | A_blend v => Some (Glop.set_blend v g)
  | A_glop v => Some (Glop.copy_assign g v)
  end.

(** The right-hand side is a value of the left-hand side's type. *)
Definition assign_ok (a : Assignment) : bool :=
  match a with
  | A_field w => Glop.write_ok w
  | A_mesh v => Glop.Mesh.wf v
  | A_fill v => Glop.Fill.wf v
  | A_transform v => Glop.Transform.wf v
  | A_blend v => Glop.Blend.wf v
  | A_glop v => Glop.wf v
  end.

Fixpoint assigns (l : list Assignment) (g : Glop.t) : option Glop.t :=
  match l with
  | [] => Some g
  | a :: l' => g' ← assign a g; assigns l' g'
  end.

(** The value that an assignment gives to [mesh.primitiveMode], if it gives
    it one: the right-hand side of an assignment to the field, or the field
    of the mesh or descriptor on the right-hand side. *)
Definition assigned_primitiveMode (a : Assignment) : option GLuint :=
  match a with
  | A_field (Glop.W_mesh_primitiveMode v) => Some v
  | A_mesh m => Some (Glop.Mesh.primitiveMode m)
  | A_glop o => Some (Glop.Mesh.primitiveMode (Glop.mesh o))
  | _ => None
  end.

(** Likewise for [mesh.vertexCount]. *)
Definition assigned_vertexCount (a : Assignment) : option int :=
  match a with
  | A_field (Glop.W_mesh_vertexCount v) => Some v
  | A_mesh m => Some (Glop.Mesh.vertexCount m)
  | A_glop o => Some (Glop.Mesh.vertexCount (Glop.mesh o))
  | _ => None
  end.

(** The value last assigned in a sequence of assignments, [None] if the
    sequence assigns none. *)
Definition last_assigned {A} (f : Assignment → option A) (l : list Assignment)
    : option A :=
  last (omap f l).

(** The assignments that store into one of the four source fields of the
    mesh. *)
Definition assigns_mesh_source (a : Assignment) : bool :=
  match a with
  | A_field w => writes_mesh_source w
  | A_mesh _ | A_glop _ => true
  | A_fill _ | A_transform _ | A_blend _ => false
  end.

(** ** Properties of [VertexAttribFlags] *)

Section VertexAttribFlagsFacts.
Import VertexAttribFlags.

Lemma bmax_eq : bmax = 7.
Proof. reflexivity. Qed.

Lemma representable_range v : representable v = true ↔ 0 ≤ v ≤ 7.
Proof. unfold representable. rewrite bmax_eq. lia. Qed.

Lemma of_attribs_read tex col alpha :
  has (of_attribs tex col alpha) kTextureCoord_Attrib = tex
  ∧ has (of_attribs tex col alpha) kColor_Attrib = col
  ∧ has (of_attribs tex col alpha) kAlpha_Attrib = alpha.
Proof. by destruct tex, col, alpha. Qed.

Lemma of_attribs_representable tex col alpha :
  representable (of_attribs tex col alpha) = true.
Proof. by destruct tex, col, alpha. Qed.

(** A value of the enumeration is the set of its three flags. *)
Lemma representable_of_attribs v :
  representable v = true →
  v = of_attribs (has v kTextureCoord_Attrib) (has v kColor_Attrib)
                 (has v kAlpha_Attrib).
Proof.
  intros Hv%representable_range.
  assert (v = 0 ∨ v = 1 ∨ v = 2 ∨ v = 3 ∨ v = 4 ∨ v = 5 ∨ v = 6 ∨ v = 7)
    as Hcases by lia.
  by destruct Hcases as [->|[->|[->|[->|[->|[->|[->| ->]]]]]]].
Qed.
End VertexAttribFlagsFacts.

(** C5.  The optional vertex attributes are texture coordinate, colour and
    alpha, and nothing else: the three enumerators are the single bits 0, 1
    and 2, pairwise distinct; every enumerator other than the empty set is one
    of them, so no enumerator stands for the position attribute; any
    combination of the three, all three together included, is a value of the
    enumeration from which each flag is read back independently of the other
    two; and the three flags account for every value of the enumeration,
    which leaves no value that would carry a position bit. *)
Theorem vertex_attrib_flags_bitset :
  (VertexAttribFlags.kTextureCoord_Attrib = 2 ^ 0
   ∧ VertexAttribFlags.kColor_Attrib = 2 ^ 1
   ∧ VertexAttribFlags.kAlpha_Attrib = 2 ^ 2)
  ∧ (∀ e, e ∈ VertexAttribFlags.enumerators →
          e ≠ VertexAttribFlags.kNone_Attrib →
          e = VertexAttribFlags.kTextureCoord_Attrib
          ∨ e = VertexAttribFlags.kColor_Attrib
          ∨ e = VertexAttribFlags.kAlpha_Attrib)
  ∧ (∀ tex col alpha,
        let flags := VertexAttribFlags.of_attribs tex col alpha in
        VertexAttribFlags.representable flags = true
        ∧ VertexAttribFlags.has flags VertexAttribFlags.kTextureCoord_Attrib = tex
        ∧ VertexAttribFlags.has flags VertexAttribFlags.kColor_Attrib = col
        ∧ VertexAttribFlags.has flags VertexAttribFlags.kAlpha_Attrib = alpha)
  ∧ (∀ v, VertexAttribFlags.representable v = true →
          v = VertexAttribFlags.of_attribs
                (VertexAttribFlags.has v VertexAttribFlags.kTextureCoord_Attrib)
                (VertexAttribFlags.has v VertexAttribFlags.kColor_Attrib)
                (VertexAttribFlags.has v VertexAttribFlags.kAlpha_Attrib)).
Proof.
  split; [done|]. split; [|split].
  - intros e He Hne. unfold VertexAttribFlags.enumerators in He.
    repeat (apply elem_of_cons in He as [->|He]); try by auto.
    by apply elem_of_nil in He.
  - intros tex col alpha flags. subst flags.
    split; [apply of_attribs_representable | apply of_attribs_read].
  - apply representable_of_attribs.
Qed.

(** The flag set with all three attributes is the value 7; reading it back
    gives the three flags of the enumerator list. *)
Lemma vertex_attrib_flags_bitset_witness :
  VertexAttribFlags.kColor_Attrib ∈ VertexAttribFlags.enumerators
  ∧ VertexAttribFlags.representable 7 = true
  ∧ (VertexAttribFlags.kColor_Attrib = VertexAttribFlags.kTextureCoord_Attrib
     ∨ VertexAttribFlags.kColor_Attrib = VertexAttribFlags.kColor_Attrib
     ∨ VertexAttribFlags.kColor_Attrib = VertexAttribFlags.kAlpha_Attrib)
  ∧ 7 = VertexAttribFlags.of_attribs true true true.
Proof.
  assert (VertexAttribFlags.kColor_Attrib ∈ VertexAttribFlags.enumerators) as Hin
    by (unfold VertexAttribFlags.enumerators; do 2 right; left).
  assert (VertexAttribFlags.representable 7 = true) as Hrep by reflexivity.
  split; [exact Hin|]. split; [exact Hrep|]. split.
  - apply (proj1 (proj2 vertex_attrib_flags_bitset)
             VertexAttribFlags.kColor_Attrib Hin); discriminate.
  - apply (proj2 (proj2 (proj2 vertex_attrib_flags_bitset)) 7 Hrep).
Defined.

(** ** Properties of [Glop::FloatColor] *)

Lemma FloatColor_store_eq c :
  Glop.FloatColor.store c =
  [Glop.FloatColor.a c; Glop.FloatColor.r c; Glop.FloatColor.g c; Glop.FloatColor.b c].
Proof. reflexivity. Qed.

Lemma FloatColor_load_store c (rest : list float) :
  Glop.FloatColor.load (Glop.FloatColor.store c ++ rest) = c.
Proof. by destruct c. Qed.

Lemma FloatColor_get_set m x c :
  Glop.FloatColor.get m (Glop.FloatColor.set m x c) = x.
Proof. by destruct m. Qed.

Lemma FloatColor_get_set_ne m m' x c :
  m ≠ m' → Glop.FloatColor.get m' (Glop.FloatColor.set m x c) = Glop.FloatColor.get m' c.
Proof. by destruct m, m'. Qed.

(** C6.  The fill colour is four floats, alpha first: the members are
    declared, and laid out, in the order a, r, g, b, one 32-bit cell each,
    and a colour assigned to [fill.color] is read back, cell by cell in
    declaration order, as its alpha, red, green and blue components. *)
Theorem fill_color_channel_order :
  Glop.FloatColor.members =
    [Glop.FloatColor.m_a; Glop.FloatColor.m_r; Glop.FloatColor.m_g; Glop.FloatColor.m_b]
  ∧ Glop.FloatColor.offset <$> Glop.FloatColor.members = [0; 1; 2; 3]%nat
  ∧ ∀ (g : Glop.t) (alpha red green blue : float),
      ∃ g', Glop.write (Glop.W_fill_color
                          (Glop.FloatColor.mk alpha red green blue)) g = Some g'
            ∧ Glop.FloatColor.store (Glop.Fill.color (Glop.fill g'))
              = [alpha; red; green; blue]
            ∧ (λ m, Glop.FloatColor.get m (Glop.Fill.color (Glop.fill g')))
                <$> Glop.FloatColor.members
              = [alpha; red; green; blue]
            ∧ (is_float alpha && is_float red && is_float green && is_float blue = true →
               Forall (λ cell, 0 ≤ cell < 2 ^ 32)
                      (Glop.FloatColor.store (Glop.Fill.color (Glop.fill g')))).
Proof.
  split; [done|]. split; [done|].
  intros g alpha red green blue. eexists. split; [reflexivity|].
  split; [done|]. split; [done|].
  cbn. unfold is_float, is_uint32. intros H.
  repeat apply Forall_cons_2; try apply Forall_nil_2; lia.
Qed.

(** Scenario A's red fill, {1.0, 1.0, 0.0, 0.0}: alpha is the first cell. *)
Lemma fill_color_channel_order_witness :
  ∃ g', Glop.write (Glop.W_fill_color (Glop.FloatColor.mk f1_0 f1_0 f0_0 f0_0))
                   Glop.value_init = Some g'
        ∧ Glop.FloatColor.store (Glop.Fill.color (Glop.fill g'))
          = [f1_0; f1_0; f0_0; f0_0]
        ∧ Forall (λ cell, 0 ≤ cell < 2 ^ 32)
                 (Glop.FloatColor.store (Glop.Fill.color (Glop.fill g'))).
Proof.
  destruct (proj2 (proj2 fill_color_channel_order)
              Glop.value_init f1_0 f1_0 f0_0 f0_0) as (g' & Hw & Hs & _ & Hr).
  exists g'. split; [exact Hw|]. split; [exact Hs|]. apply Hr. reflexivity.
Defined.

(** ** The implicit special member functions *)

(** C1.  Nothing in the struct disables copying (the TODO above it asks for
    that): the implicit copy constructor and copy assignment are available
    for every descriptor, and each produces a second descriptor equal to the
    first, field for field. *)
Theorem glop_copy_duplicates :
  ∀ (g self : Glop.t),
    Glop.copy_ctor g = g ∧ Glop.copy_assign self g = g.
Proof. intros [] []. done. Qed.

Lemma default_init_members mem :
  Glop.bounds (Glop.default_init mem) = Rect.ctor
  ∧ Glop.Transform.ortho (Glop.transform (Glop.default_init mem)) = Matrix4.identity
  ∧ Glop.Transform.modelView (Glop.transform (Glop.default_init mem)) = Matrix4.identity
  ∧ Glop.Transform.canvas (Glop.transform (Glop.default_init mem)) = Matrix4.identity
  ∧ Glop.mesh (Glop.default_init mem) = Glop.mesh mem
  ∧ Glop.fill (Glop.default_init mem) = Glop.fill mem
  ∧ Glop.Transform.fudgingOffset (Glop.transform (Glop.default_init mem))
    = Glop.Transform.fudgingOffset (Glop.transform mem)
  ∧ Glop.blend (Glop.default_init mem) = Glop.blend mem.
Proof. repeat split. Qed.

Lemma default_init_wf mem : Glop.wf mem = true → Glop.wf (Glop.default_init mem) = true.
Proof.
  unfold Glop.wf. rewrite !andb_true_iff. intros ((((_ & ?) & ?) & _) & ?).
  repeat split; done.
Qed.

(** C2, as the code has it.  A value-initialized descriptor, [Glop()], is
    neutral: buffer handles 0, client pointers null, vertex count and stride
    0, no optional attribute, primitive mode 0, program null, colour and
    filter payload 0, filter mode the first enumerator, bounds 0, the three
    matrices identity, no fudging offset, blend factors 0.  A
    default-initialized one, [Glop glop;], gets only what the constructors of
    its members give it, the bounds and the three identity matrices; its
    mesh, fill, fudging-offset flag and blend factors are whatever the storage
    held. *)
Theorem value_init_neutral :
  neutral Glop.value_init
  ∧ Glop.bounds Glop.value_init = Rect.mk f0_0 f0_0 f0_0 f0_0
  ∧ Glop.Mesh.indexBufferObject (Glop.mesh Glop.value_init) = 0
  ∧ Glop.Mesh.stride (Glop.mesh Glop.value_init) = 0
  ∧ Glop.Fill.filterMode (Glop.fill Glop.value_init) = ProgramDescription.kColorNone
  ∧ Glop.Fill.filter (Glop.fill Glop.value_init) = replicate 20 f0_0
  ∧ Glop.wf Glop.value_init = true
  ∧ ∀ mem : Glop.t,
      Glop.bounds (Glop.default_init mem) = Rect.ctor
      ∧ Glop.Transform.ortho (Glop.transform (Glop.default_init mem)) = Matrix4.identity
      ∧ Glop.Transform.modelView (Glop.transform (Glop.default_init mem)) = Matrix4.identity
      ∧ Glop.Transform.canvas (Glop.transform (Glop.default_init mem)) = Matrix4.identity
      ∧ Glop.mesh (Glop.default_init mem) = Glop.mesh mem
      ∧ Glop.fill (Glop.default_init mem) = Glop.fill mem
      ∧ Glop.Transform.fudgingOffset (Glop.transform (Glop.default_init mem))
        = Glop.Transform.fudgingOffset (Glop.transform mem)
      ∧ Glop.blend (Glop.default_init mem) = Glop.blend mem.
Proof.
  split; [by repeat split|].
  do 6 (split; [reflexivity|]).
  apply default_init_members.
Qed.

(** C2, as stated, fails for [Glop glop;] placed in storage that held other
    data: the vertex count, among others, is not 0 afterwards. *)
Lemma default_init_not_neutral :
  Glop.wf Scenarios.stale = true
  ∧ Glop.Mesh.vertexCount (Glop.mesh (Glop.default_init Scenarios.stale)) = -1
  ∧ ¬ neutral (Glop.default_init Scenarios.stale).
Proof.
  split; [reflexivity|]. split; [reflexivity|].
  intros (Hvbo & _). discriminate Hvbo.
Qed.

(** ** Field assignments keep a descriptor well typed *)

Lemma forallb_is_float (l : list float) :
  forallb is_float l = true ↔ Forall (λ x, is_float x = true) l.
Proof. rewrite forallb_forall, Forall_forall. by setoid_rewrite list_elem_of_In. Qed.

Lemma Filter_wf_iff (u : list float) :
  Glop.Filter.wf u = true ↔ length u = 20%nat ∧ Forall (λ x, is_float x = true) u.
Proof.
  unfold Glop.Filter.wf. rewrite andb_true_iff, Nat.eqb_eq, forallb_is_float. done.
Qed.

Lemma Matrix_wf_iff m :
  Glop.Filter.Matrix.wf m = true ↔
  length (Glop.Filter.Matrix.matrix m) = 16%nat
  ∧ length (Glop.Filter.Matrix.vector m) = 4%nat
  ∧ Forall (λ x, is_float x = true) (Glop.Filter.Matrix.matrix m)
  ∧ Forall (λ x, is_float x = true) (Glop.Filter.Matrix.vector m).
Proof.
  unfold Glop.Filter.Matrix.wf.
  rewrite !andb_true_iff, !Nat.eqb_eq, !forallb_is_float. tauto.
Qed.

Lemma FloatColor_wf_iff c :
  Glop.FloatColor.wf c = true ↔ Forall (λ x, is_float x = true) (Glop.FloatColor.store c).
Proof. apply forallb_is_float. Qed.

Lemma FloatColor_set_wf m x c :
  Glop.FloatColor.wf c = true → is_float x = true →
  Glop.FloatColor.wf (Glop.FloatColor.set m x c) = true.
Proof.
  destruct c, m; unfold Glop.FloatColor.wf; cbn;
    rewrite !andb_true_iff; intros (? & ? & ? & ? & _) ?; repeat split; assumption.
Qed.

Lemma Filter_set_matrix_wf m (u : list float) :
  Glop.Filter.wf u = true → Glop.Filter.Matrix.wf m = true →
  Glop.Filter.wf (Glop.Filter.set_matrix m u) = true.
Proof.
  rewrite !Filter_wf_iff, Matrix_wf_iff. intros [Hlen Hu] (Hm & Hv & Hfm & Hfv).
  unfold Glop.Filter.set_matrix, Glop.Filter.Matrix.store. split.
  - rewrite !length_app, length_drop, Hm, Hv, Hlen. reflexivity.
  - repeat apply Forall_app_2; try done. by apply Forall_drop.
Qed.

Lemma Filter_set_color_wf c (u : list float) :
  Glop.Filter.wf u = true → Glop.FloatColor.wf c = true →
  Glop.Filter.wf (Glop.Filter.set_color c u) = true.
Proof.
  rewrite !Filter_wf_iff, FloatColor_wf_iff. intros [Hlen Hu] Hc.
  unfold Glop.Filter.set_color. split.
  - rewrite length_app, length_drop, Hlen. reflexivity.
  - apply Forall_app_2; [done|]. by apply Forall_drop.
Qed.

Lemma Filter_insert_wf i x (u : list float) :
  Glop.Filter.wf u = true → is_float x = true →
  Glop.Filter.wf (<[i := x]> u) = true.
Proof.
  rewrite !Filter_wf_iff. intros [Hlen Hu] Hx. split.
  - by rewrite length_insert.
  - by apply Forall_insert.
Qed.

Lemma Filter_set_matrix_matrix_Some i x (u u' : list float) :
  Glop.Filter.set_matrix_matrix i x u = Some u' ↔ (i < 16)%nat ∧ u' = <[i := x]> u.
Proof.
  unfold Glop.Filter.set_matrix_matrix, Glop.Filter.Matrix.matrix_len.
  destruct (Nat.ltb_spec i 16) as [Hlt|Hge]; split.
  - by intros [= <-].
  - by intros [_ ->].
  - intros [=].
  - intros [Hlt _]. lia.
Qed.

Lemma Filter_set_matrix_vector_Some i x (u u' : list float) :
  Glop.Filter.set_matrix_vector i x u = Some u' ↔
  (i < 4)%nat ∧ u' = <[(16 + i)%nat := x]> u.
Proof.
  unfold Glop.Filter.set_matrix_vector, Glop.Filter.Matrix.vector_len,
    Glop.Filter.Matrix.matrix_len.
  destruct (Nat.ltb_spec i 4) as [Hlt|Hge]; split.
  - by intros [= <-].
  - by intros [_ ->].
  - intros [=].
  - intros [Hlt _]. lia.
Qed.

(** An assignment of a value of the field's type, with subscripts in range,
    is defined. *)
Lemma write_total w g : Glop.write_ok w = true → is_Some (Glop.write w g).
Proof.
  destruct w; try (by eexists).
  - unfold Glop.write_ok, Glop.write. intros [Hi%Nat.ltb_lt _]%andb_true_iff.
    eexists. erewrite (proj2 (Filter_set_matrix_matrix_Some _ _ _ _)); done.
  - unfold Glop.write_ok, Glop.write. intros [Hi%Nat.ltb_lt _]%andb_true_iff.
    eexists. erewrite (proj2 (Filter_set_matrix_vector_Some _ _ _ _)); done.
Qed.

(** The descriptor after a write to [fill.filter] through its storage. *)
Lemma write_wf_filter g (u : list float) :
  Glop.wf g = true → Glop.Filter.wf u = true →
  Glop.wf (Glop.set_fill (Glop.Fill.set_filter u (Glop.fill g)) g) = true.
Proof.
  unfold Glop.wf, Glop.Fill.wf. cbn. rewrite !andb_true_iff. tauto.
Qed.

Lemma write_wf w g g' :
  Glop.wf g = true → Glop.write_ok w = true → Glop.write w g = Some g' →
  Glop.wf g' = true.
Proof.
  intros Hg Hok Hw.
  assert (Glop.Filter.wf (Glop.Fill.filter (Glop.fill g)) = true
          ∧ Glop.FloatColor.wf (Glop.Fill.color (Glop.fill g)) = true) as [Hfi Hco].
  { revert Hg. unfold Glop.wf, Glop.Fill.wf. rewrite !andb_true_iff. tauto. }
  destruct w; unfold Glop.write_ok in Hok; unfold Glop.write in Hw.
  all: try (injection Hw as <-; revert Hg Hok;
            unfold Glop.wf, Glop.Mesh.wf, Glop.Fill.wf, Glop.Transform.wf, Glop.Blend.wf;
            cbn; rewrite ?andb_true_iff; tauto).
  - injection Hw as <-. pose proof (FloatColor_set_wf m x _ Hco Hok) as Hc.
    revert Hg Hc. unfold Glop.wf, Glop.Fill.wf. cbn. rewrite !andb_true_iff. tauto.
  - injection Hw as <-. apply write_wf_filter; [done|].
    by apply Filter_set_matrix_wf.
  - apply andb_true_iff in Hok as [_ Hx].
    destruct (Glop.Filter.set_matrix_matrix i x _) as [u|] eqn:Hu; [|done].
    apply Filter_set_matrix_matrix_Some in Hu as [_ ->].
    injection Hw as <-. apply write_wf_filter; [done|]. by apply Filter_insert_wf.
  - apply andb_true_iff in Hok as [_ Hx].
    destruct (Glop.Filter.set_matrix_vector i x _) as [u|] eqn:Hu; [|done].
    apply Filter_set_matrix_vector_Some in Hu as [_ ->].
    injection Hw as <-. apply write_wf_filter; [done|]. by apply Filter_insert_wf.
  - injection Hw as <-. apply write_wf_filter; [done|].
    by apply Filter_set_color_wf.
  - injection Hw as <-. apply write_wf_filter; [done|]. by apply Filter_insert_wf.
Qed.

(** ** The mesh fields *)

Lemma write_primitiveMode g v :
  Glop.write (Glop.W_mesh_primitiveMode v) g
  = Some (Glop.set_mesh (Glop.Mesh.set_primitiveMode v (Glop.mesh g)) g).
Proof. reflexivity. Qed.

Lemma write_vertexCount g n :
  Glop.write (Glop.W_mesh_vertexCount n) g
  = Some (Glop.set_mesh (Glop.Mesh.set_vertexCount n (Glop.mesh g)) g).
Proof. reflexivity. Qed.

Lemma supported_primitiveMode_iff m :
  Glop.Mesh.supported_primitiveMode m = true ↔
  Glop.Mesh.primitiveMode m = GL_TRIANGLES ∨ Glop.Mesh.primitiveMode m = GL_TRIANGLE_STRIP.
Proof.
  unfold Glop.Mesh.supported_primitiveMode. rewrite orb_true_iff, !Z.eqb_eq. done.
Qed.

(** C7, as stated, fails: a value-initialized descriptor has primitive mode 0,
    and the field accepts 6 ([GL_TRIANGLE_FAN]) like any other [GLuint]. *)
Lemma primitive_mode_not_restricted :
  (Glop.wf Glop.value_init = true
   ∧ ¬ (Glop.Mesh.primitiveMode (Glop.mesh Glop.value_init) = GL_TRIANGLES
        ∨ Glop.Mesh.primitiveMode (Glop.mesh Glop.value_init) = GL_TRIANGLE_STRIP))
  ∧ ∃ g', Glop.write (Glop.W_mesh_primitiveMode 6) Scenarios.A = Some g'
          ∧ Glop.wf g' = true
          ∧ ¬ (Glop.Mesh.primitiveMode (Glop.mesh g') = GL_TRIANGLES
               ∨ Glop.Mesh.primitiveMode (Glop.mesh g') = GL_TRIANGLE_STRIP).
Proof.
  split.
  - split; [reflexivity|]. by intros [|].
  - eexists. split; [reflexivity|]. split; [reflexivity|]. by intros [|].
Qed.

(** C8, as stated, fails: the field accepts -1, and a descriptor
    default-initialized in storage that held -1 there keeps it. *)
Lemma vertex_count_negative :
  (∃ g', Glop.write (Glop.W_mesh_vertexCount (-1)) Scenarios.A = Some g'
         ∧ Glop.wf g' = true
         ∧ ¬ 0 ≤ Glop.Mesh.vertexCount (Glop.mesh g'))
  ∧ Glop.wf (Glop.default_init Scenarios.stale) = true
  ∧ ¬ 0 ≤ Glop.Mesh.vertexCount (Glop.mesh (Glop.default_init Scenarios.stale)).
Proof.
  split.
  - eexists. split; [reflexivity|]. split; [reflexivity|]. cbn. lia.
  - split; [reflexivity|]. cbn. lia.
Qed.

(** The comment "buffer objects and void*s are mutually exclusive, indices
    are optional" describes the meshes of scenarios A and B.  The struct
    itself keeps a handle and a pointer as two fields and checks nothing:
    a value-initialized descriptor has no vertex source at all, and a
    descriptor with both a vertex buffer object and a client pointer is
    as well typed as any. *)
Lemma mesh_sources_scenarios :
  Glop.Mesh.mutually_exclusive (Glop.mesh Scenarios.A) = true
  ∧ Glop.Mesh.mutually_exclusive (Glop.mesh Scenarios.B) = true.
Proof. split; reflexivity. Qed.

Lemma mesh_sources_unchecked :
  Glop.Mesh.mutually_exclusive (Glop.mesh Glop.value_init) = false
  ∧ ∃ g', Glop.writes [Glop.W_mesh_vertexBufferObject 17;
                       Glop.W_mesh_vertices Scenarios.clientBuf] Glop.value_init
          = Some g'
          ∧ Glop.wf g' = true
          ∧ Glop.Mesh.mutually_exclusive (Glop.mesh g') = false.
Proof.
  split; [reflexivity|]. eexists. split; [reflexivity|]. split; reflexivity.
Qed.

(** ** The filter payload: two views of one storage *)

Section FilterFacts.
Import Glop.

Lemma Matrix_load_store mat vec (rest : list float) :
  length mat = 16%nat → length vec = 4%nat →
  Filter.Matrix.load (Filter.Matrix.store (Filter.Matrix.mk mat vec) ++ rest)
  = Filter.Matrix.mk mat vec.
Proof.
  intros Hmat Hvec. unfold Filter.Matrix.load, Filter.Matrix.store. cbn.
  rewrite <- (assoc_L (++)). f_equal.
  - by rewrite take_app_length'.
  - rewrite drop_app_length' by done. by rewrite take_app_length'.
Qed.

Lemma get_set_matrix mat vec (u : list float) :
  length mat = 16%nat → length vec = 4%nat →
  Filter.get_matrix (Filter.set_matrix (Filter.Matrix.mk mat vec) u)
  = Filter.Matrix.mk mat vec.
Proof. apply Matrix_load_store. Qed.

Lemma get_set_color c (u : list float) :
  Filter.get_color (Filter.set_color c u) = c.
Proof. apply FloatColor_load_store. Qed.

(** The colour arm lies over the first four entries of [matrix]. *)
Lemma get_matrix_set_color c (u : list float) :
  length u = 20%nat →
  Filter.get_matrix (Filter.set_color c u)
  = Filter.Matrix.mk (FloatColor.store c ++ take 12 (drop 4 u)) (drop 16 u).
Proof.
  intros Hlen. unfold Filter.get_matrix, Filter.set_color, Filter.Matrix.load.
  change FloatColor.size with 4%nat.
  change Filter.Matrix.matrix_len with 16%nat.
  change Filter.Matrix.vector_len with 4%nat.
  rewrite take_app, drop_app, FloatColor_store_eq. cbn [length].
  change (16 - 4)%nat with 12%nat. cbn [take drop]. f_equal.
  rewrite drop_drop. change (4 + 12)%nat with 16%nat.
  apply take_ge. rewrite length_drop. lia.
Qed.

Lemma get_color_set_matrix m (u : list float) :
  length (Filter.Matrix.matrix m) = 16%nat →
  FloatColor.store (Filter.get_color (Filter.set_matrix m u))
  = take 4 (Filter.Matrix.matrix m).
Proof.
  destruct m as [mat vec]. cbn [Filter.Matrix.matrix]. intros Hlen.
  do 4 (destruct mat as [|? mat]; [discriminate Hlen|]). reflexivity.
Qed.

(** One cell, reached through either arm. *)
Lemma get_matrix_matrix_set_color_member mbr x (u : list float) :
  length u = 20%nat →
  Filter.get_matrix_matrix (FloatColor.offset mbr) (Filter.set_color_member mbr x u)
  = Some x.
Proof.
  intros Hlen. unfold Filter.get_matrix_matrix, Filter.set_color_member.
  assert (FloatColor.offset mbr < 4)%nat as Hoff by (destruct mbr; cbn; lia).
  change Filter.Matrix.matrix_len with 16%nat.
  destruct (Nat.ltb_spec (FloatColor.offset mbr) 16) as [_|]; [|lia].
  apply list_lookup_insert_eq. lia.
Qed.

Lemma get_color_member_set_matrix_matrix mbr x (u : list float) :
  length u = 20%nat →
  Filter.get_color_member mbr <$> Filter.set_matrix_matrix (FloatColor.offset mbr) x u
  = Some x.
Proof.
  intros Hlen. unfold Filter.get_color_member, Filter.set_matrix_matrix.
  assert (FloatColor.offset mbr < 4)%nat as Hoff by (destruct mbr; cbn; lia).
  change Filter.Matrix.matrix_len with 16%nat.
  destruct (Nat.ltb_spec (FloatColor.offset mbr) 16) as [_|]; [|lia].
  cbn. f_equal. apply list_lookup_total_insert_eq. lia.
Qed.
End FilterFacts.

(** C4.  The payload is read back as written through the arm that the filter
    mode names: with the mode at matrix, a 4x4 matrix and a 4-vector assigned
    to [filter.matrix] are the matrix and vector read from [filter.matrix];
    with the mode at blend, a colour assigned to [filter.color] is the colour
    read from [filter.color].  The mode is left as it was. *)
Theorem filter_payload_roundtrip :
  ∀ g : Glop.t,
    (∀ mat vec : list float,
        Glop.Fill.filterMode (Glop.fill g) = ProgramDescription.kColorMatrix →
        length mat = 16%nat → length vec = 4%nat →
        ∃ g', Glop.write (Glop.W_fill_filter_matrix (Glop.Filter.Matrix.mk mat vec)) g
              = Some g'
              ∧ Glop.Fill.filterMode (Glop.fill g') = ProgramDescription.kColorMatrix
              ∧ Glop.Filter.Matrix.matrix
                  (Glop.Filter.get_matrix (Glop.Fill.filter (Glop.fill g'))) = mat
              ∧ Glop.Filter.Matrix.vector
                  (Glop.Filter.get_matrix (Glop.Fill.filter (Glop.fill g'))) = vec)
    ∧ (∀ c : Glop.FloatColor.t,
        Glop.Fill.filterMode (Glop.fill g) = ProgramDescription.kColorBlend →
        ∃ g', Glop.write (Glop.W_fill_filter_color c) g = Some g'
              ∧ Glop.Fill.filterMode (Glop.fill g') = ProgramDescription.kColorBlend
              ∧ Glop.Filter.get_color (Glop.Fill.filter (Glop.fill g')) = c).
Proof.
  intros g. split.
  - intros mat vec Hmode Hmat Hvec. eexists. split; [reflexivity|].
    split; [exact Hmode|]. cbn [Glop.fill Glop.set_fill Glop.Fill.filter Glop.Fill.set_filter].
    rewrite get_set_matrix by done. done.
  - intros c Hmode. eexists. split; [reflexivity|]. split; [exact Hmode|].
    apply get_set_color.
Qed.

(** Scenarios C and D: the identity matrix with a zero vector under the
    matrix mode, and the colour {1.0, 0.5, 0.5, 0.5} under the blend mode. *)
Lemma filter_payload_roundtrip_witness :
  (∃ g', Glop.write (Glop.W_fill_filter_matrix Scenarios.C_matrix) Scenarios.C = Some g'
         ∧ Glop.Filter.Matrix.matrix
             (Glop.Filter.get_matrix (Glop.Fill.filter (Glop.fill g'))) = Matrix4.identity
         ∧ Glop.Filter.Matrix.vector
             (Glop.Filter.get_matrix (Glop.Fill.filter (Glop.fill g')))
           = [f0_0; f0_0; f0_0; f0_0])
  ∧ (∃ g', Glop.write (Glop.W_fill_filter_color Scenarios.D_color) Scenarios.D = Some g'
           ∧ Glop.Filter.get_color (Glop.Fill.filter (Glop.fill g')) = Scenarios.D_color).
Proof.
  split.
  - destruct (proj1 (filter_payload_roundtrip Scenarios.C)
                Matrix4.identity [f0_0; f0_0; f0_0; f0_0])
      as (g' & Hw & _ & Hm & Hv); [reflexivity | reflexivity | reflexivity |].
    exists g'. split; [exact Hw|]. split; [exact Hm | exact Hv].
  - destruct (proj2 (filter_payload_roundtrip Scenarios.D) Scenarios.D_color)
      as (g' & Hw & _ & Hc); [reflexivity|].
    exists g'. split; [exact Hw | exact Hc].
Defined.

(** C9.  The two arms of the payload are one storage and no read looks at
    the filter mode.  Whatever the mode of a descriptor is: after a colour is
    assigned to [filter.color], [filter.matrix] reads as a full 16-entry
    matrix and 4-entry vector whose first four matrix entries are the colour's
    a, r, g, b and whose other entries are what the storage held; after a
    matrix is assigned to [filter.matrix], [filter.color] reads as the first
    four matrix entries; and changing the mode changes what neither arm
    reads. *)
Theorem filter_arms_share_storage :
  ∀ g : Glop.t,
    (∀ c : Glop.FloatColor.t,
        Glop.Filter.wf (Glop.Fill.filter (Glop.fill g)) = true →
        Glop.FloatColor.wf c = true →
        ∃ g', Glop.write (Glop.W_fill_filter_color c) g = Some g'
              ∧ Glop.Filter.Matrix.wf
                  (Glop.Filter.get_matrix (Glop.Fill.filter (Glop.fill g'))) = true
              ∧ take 4 (Glop.Filter.Matrix.matrix
                          (Glop.Filter.get_matrix (Glop.Fill.filter (Glop.fill g'))))
                = [Glop.FloatColor.a c; Glop.FloatColor.r c;
                   Glop.FloatColor.g c; Glop.FloatColor.b c]
              ∧ drop 4 (Glop.Filter.Matrix.matrix
                          (Glop.Filter.get_matrix (Glop.Fill.filter (Glop.fill g'))))
                = drop 4 (Glop.Filter.Matrix.matrix
                            (Glop.Filter.get_matrix (Glop.Fill.filter (Glop.fill g))))
              ∧ Glop.Filter.Matrix.vector
                  (Glop.Filter.get_matrix (Glop.Fill.filter (Glop.fill g')))
                = Glop.Filter.Matrix.vector
                    (Glop.Filter.get_matrix (Glop.Fill.filter (Glop.fill g))))
    ∧ (∀ m : Glop.Filter.Matrix.t,
        Glop.Filter.Matrix.wf m = true →
        ∃ g', Glop.write (Glop.W_fill_filter_matrix m) g = Some g'
              ∧ Glop.FloatColor.store
                  (Glop.Filter.get_color (Glop.Fill.filter (Glop.fill g')))
                = take 4 (Glop.Filter.Matrix.matrix m))
    ∧ (∀ mode : ProgramDescription.ColorFilterMode,
        ∃ g', Glop.write (Glop.W_fill_filterMode mode) g = Some g'
              ∧ Glop.Fill.filterMode (Glop.fill g') = mode
              ∧ Glop.Filter.get_matrix (Glop.Fill.filter (Glop.fill g'))
                = Glop.Filter.get_matrix (Glop.Fill.filter (Glop.fill g))
              ∧ Glop.Filter.get_color (Glop.Fill.filter (Glop.fill g'))
                = Glop.Filter.get_color (Glop.Fill.filter (Glop.fill g))).
Proof.
  intros g. split; [|split].
  - intros c Hu Hc. eexists. split; [reflexivity|].
    cbn [Glop.fill Glop.set_fill Glop.Fill.filter Glop.Fill.set_filter].
    pose proof Hu as [Hlen Hfl]%Filter_wf_iff.
    rewrite get_matrix_set_color by done.
    cbn [Glop.Filter.Matrix.matrix Glop.Filter.Matrix.vector].
    split; [|split; [reflexivity|split]].
    + apply Matrix_wf_iff. cbn [Glop.Filter.Matrix.matrix Glop.Filter.Matrix.vector].
      rewrite length_app, length_take, !length_drop, Hlen.
      split; [reflexivity|]. split; [reflexivity|]. split.
      * apply Forall_app_2; [by apply FloatColor_wf_iff|].
        by apply Forall_take, Forall_drop.
      * by apply Forall_drop.
    + unfold Glop.Filter.get_matrix, Glop.Filter.Matrix.load.
      cbn [Glop.Filter.Matrix.matrix]. change Glop.Filter.Matrix.matrix_len with 16%nat.
      rewrite FloatColor_store_eq. cbn [app drop].
      apply (take_drop_commute _ 12 4).
    + unfold Glop.Filter.get_matrix, Glop.Filter.Matrix.load.
      cbn [Glop.Filter.Matrix.vector]. symmetry. apply take_ge.
      rewrite length_drop, Hlen. reflexivity.
  - intros m [Hmat _]%Matrix_wf_iff. eexists. split; [reflexivity|].
    by apply get_color_set_matrix.
  - intros mode. eexists. split; [reflexivity|]. by repeat split.
Qed.

(** Scenario D's colour written into the payload of scenario C, whose mode is
    matrix: the matrix arm starts with the colour; and scenario C's identity
    matrix written into scenario D, whose mode is blend: the colour arm is the
    first matrix row. *)
Lemma filter_arms_share_storage_witness :
  (∃ g', Glop.write (Glop.W_fill_filter_color Scenarios.D_color) Scenarios.C = Some g'
         ∧ take 4 (Glop.Filter.Matrix.matrix
                     (Glop.Filter.get_matrix (Glop.Fill.filter (Glop.fill g'))))
           = [f1_0; f0_5; f0_5; f0_5])
  ∧ (∃ g', Glop.write (Glop.W_fill_filter_matrix Scenarios.C_matrix) Scenarios.D = Some g'
           ∧ Glop.FloatColor.store
               (Glop.Filter.get_color (Glop.Fill.filter (Glop.fill g')))
             = [f1_0; f0_0; f0_0; f0_0]).
Proof.
  split.
  - destruct (proj1 (filter_arms_share_storage Scenarios.C) Scenarios.D_color)
      as (g' & Hw & _ & Hm & _); [reflexivity | reflexivity |].
    exists g'. split; [exact Hw | exact Hm].
  - destruct (proj1 (proj2 (filter_arms_share_storage Scenarios.D)) Scenarios.C_matrix)
      as (g' & Hw & Hc); [reflexivity|].
    exists g'. split; [exact Hw | exact Hc].
Defined.

(** ** Independence of the sub-records *)

(** Each conjunct of the frame either has a premise that the assignment at
    hand contradicts, or compares a field with itself. *)
Local Ltac frame_conjuncts :=
  cbn; repeat split;
  let H := fresh in
  intros H; first [ done | by destruct H as [? H] ].

(** What an assignment leaves alone: the four groups it does not belong to,
    the payload if it sets the filter mode, and the filter mode if it stores
    into the payload. *)
Lemma write_frame w g g' :
  Glop.write w g = Some g' →
  (Glop.group_of w ≠ Glop.g_bounds → Glop.bounds g' = Glop.bounds g)
  ∧ (Glop.group_of w ≠ Glop.g_mesh → Glop.mesh g' = Glop.mesh g)
  ∧ (Glop.group_of w ≠ Glop.g_fill → Glop.fill g' = Glop.fill g)
  ∧ (Glop.group_of w ≠ Glop.g_transform → Glop.transform g' = Glop.transform g)
  ∧ (Glop.group_of w ≠ Glop.g_blend → Glop.blend g' = Glop.blend g)
  ∧ ((∃ mode, w = Glop.W_fill_filterMode mode) →
     Glop.Fill.filter (Glop.fill g') = Glop.Fill.filter (Glop.fill g))
  ∧ (Glop.writes_filter w = true →
     Glop.Fill.filterMode (Glop.fill g') = Glop.Fill.filterMode (Glop.fill g)).
Proof.
  intros Hw.
  destruct w; unfold Glop.write in Hw;
    try (injection Hw as <-; frame_conjuncts).
  - destruct (Glop.Filter.set_matrix_matrix i x _) as [u|]; [|done].
    injection Hw as <-. frame_conjuncts.
  - destruct (Glop.Filter.set_matrix_vector i x _) as [u|]; [|done].
    injection Hw as <-. frame_conjuncts.
Qed.

(** C10.  Every assignment to a field, with a value of the field's type and
    subscripts within the arrays, is defined, and whenever an assignment is
    defined it changes nothing outside the sub-record of its field: the
    bounds, mesh, fill, transform and blend groups other than its own are
    the same before and after.  Inside the fill, assigning the filter mode
    leaves the payload storage as it was, and storing into the payload,
    through either arm, leaves the filter mode as it was. *)
Theorem sub_records_independent :
  ∀ (w : Glop.FieldWrite) (g : Glop.t),
    (Glop.write_ok w = true → ∃ g', Glop.write w g = Some g')
    ∧ ∀ g', Glop.write w g = Some g' →
        (Glop.group_of w ≠ Glop.g_bounds → Glop.bounds g' = Glop.bounds g)
        ∧ (Glop.group_of w ≠ Glop.g_mesh → Glop.mesh g' = Glop.mesh g)
        ∧ (Glop.group_of w ≠ Glop.g_fill → Glop.fill g' = Glop.fill g)
        ∧ (Glop.group_of w ≠ Glop.g_transform → Glop.transform g' = Glop.transform g)
        ∧ (Glop.group_of w ≠ Glop.g_blend → Glop.blend g' = Glop.blend g)
        ∧ ((∃ mode, w = Glop.W_fill_filterMode mode) →
           Glop.Fill.filter (Glop.fill g') = Glop.Fill.filter (Glop.fill g))
        ∧ (Glop.writes_filter w = true →
           Glop.Fill.filterMode (Glop.fill g') = Glop.Fill.filterMode (Glop.fill g)).
Proof.
  intros w g. split.
  - intros Hok. by apply write_total.
  - intros g'. apply write_frame.
Qed.

(** On scenario A: assigning the vertex count leaves bounds, fill, transform
    and blend alone; assigning the blend-mode tag leaves the payload alone;
    storing a matrix entry leaves the tag alone. *)
Lemma sub_records_independent_witness :
  (∃ g', Glop.write (Glop.W_mesh_vertexCount 6) Scenarios.A = Some g'
         ∧ Glop.bounds g' = Glop.bounds Scenarios.A
         ∧ Glop.fill g' = Glop.fill Scenarios.A
         ∧ Glop.transform g' = Glop.transform Scenarios.A
         ∧ Glop.blend g' = Glop.blend Scenarios.A)
  ∧ (∃ g', Glop.write (Glop.W_fill_filterMode ProgramDescription.kColorBlend)
                      Scenarios.A = Some g'
           ∧ Glop.Fill.filter (Glop.fill g') = Glop.Fill.filter (Glop.fill Scenarios.A))
  ∧ (∃ g', Glop.write (Glop.W_fill_filter_matrix_matrix 5 f1_0) Scenarios.A = Some g'
           ∧ Glop.Fill.filterMode (Glop.fill g')
             = Glop.Fill.filterMode (Glop.fill Scenarios.A)).
Proof.
  split; [|split].
  - destruct (proj1 (sub_records_independent (Glop.W_mesh_vertexCount 6) Scenarios.A))
      as [g' Hw]; [reflexivity|].
    destruct (proj2 (sub_records_independent (Glop.W_mesh_vertexCount 6) Scenarios.A)
                g' Hw) as (Hb & _ & Hf & Ht & Hbl & _).
    exists g'. split; [exact Hw|].
    split; [apply Hb; discriminate|]. split; [apply Hf; discriminate|].
    split; [apply Ht; discriminate | apply Hbl; discriminate].
  - destruct (proj1 (sub_records_independent
                       (Glop.W_fill_filterMode ProgramDescription.kColorBlend)
                       Scenarios.A)) as [g' Hw]; [reflexivity|].
    destruct (proj2 (sub_records_independent
                       (Glop.W_fill_filterMode ProgramDescription.kColorBlend)
                       Scenarios.A) g' Hw) as (_ & _ & _ & _ & _ & Hp & _).
    exists g'. split; [exact Hw|]. apply Hp. eexists. reflexivity.
  - destruct (proj1 (sub_records_independent
                       (Glop.W_fill_filter_matrix_matrix 5 f1_0) Scenarios.A))
      as [g' Hw]; [reflexivity|].
    destruct (proj2 (sub_records_independent
                       (Glop.W_fill_filter_matrix_matrix 5 f1_0) Scenarios.A) g' Hw)
      as (_ & _ & _ & _ & _ & _ & Hm).
    exists g'. split; [exact Hw|]. apply Hm. reflexivity.
Defined.

(** ** Further properties *)

(** *** Updating a flag set *)

(** X1.  Or-ing the enumerator of an optional attribute into a flag set
    gives a flag set of the enumeration in which that attribute reads as
    enabled and the other two read as before, and doing it twice is the same
    as doing it once.  [kNone_Attrib] is the unit of the or, and testing a
    flag set against it with [&] never succeeds, whatever the set: the
    empty set is recognised by comparing with it, not by masking. *)
Theorem flags_enable :
  (∀ flags f : Z,
      VertexAttribFlags.representable flags = true →
      f ∈ optional_attribs →
      VertexAttribFlags.representable (Z.lor flags f) = true
      ∧ VertexAttribFlags.has (Z.lor flags f) f = true
      ∧ Z.lor (Z.lor flags f) f = Z.lor flags f
      ∧ ∀ f', f' ∈ optional_attribs → f' ≠ f →
              VertexAttribFlags.has (Z.lor flags f) f' = VertexAttribFlags.has flags f')
  ∧ (∀ flags : Z,
      Z.lor flags VertexAttribFlags.kNone_Attrib = flags
      ∧ VertexAttribFlags.has flags VertexAttribFlags.kNone_Attrib = false
      ∧ (VertexAttribFlags.representable flags = true →
         (flags = VertexAttribFlags.kNone_Attrib
          ↔ ∀ f, f ∈ optional_attribs → VertexAttribFlags.has flags f = false))).
Proof.
  split.
  - intros flags f Hrep%representable_range Hf.
    assert (flags = 0 ∨ flags = 1 ∨ flags = 2 ∨ flags = 3
            ∨ flags = 4 ∨ flags = 5 ∨ flags = 6 ∨ flags = 7) as Hcases by lia.
    unfold optional_attribs in *.
    repeat (apply elem_of_cons in Hf as [->|Hf]); [| | |by apply elem_of_nil in Hf].
    all: destruct Hcases as [->|[->|[->|[->|[->|[->|[->| ->]]]]]]].
    all: do 3 (split; [reflexivity|]).
    all: intros f' Hf' Hne.
    all: repeat (apply elem_of_cons in Hf' as [->|Hf']);
           [| | |by apply elem_of_nil in Hf'];
           first [ done | reflexivity ].
  - intros flags. split; [apply Z.lor_0_r|]. split.
    + unfold VertexAttribFlags.has, VertexAttribFlags.kNone_Attrib.
      by rewrite Z.land_0_r.
    + intros Hrep%representable_range. split.
      * intros -> f Hf. unfold optional_attribs in Hf.
        repeat (apply elem_of_cons in Hf as [->|Hf]); [done..|].
        by apply elem_of_nil in Hf.
      * intros Hnone.
        assert (flags = 0 ∨ flags = 1 ∨ flags = 2 ∨ flags = 3
                ∨ flags = 4 ∨ flags = 5 ∨ flags = 6 ∨ flags = 7) as Hcases by lia.
        pose proof (Hnone VertexAttribFlags.kTextureCoord_Attrib) as Ht.
        pose proof (Hnone VertexAttribFlags.kColor_Attrib) as Hc.
        pose proof (Hnone VertexAttribFlags.kAlpha_Attrib) as Ha.
        unfold optional_attribs in Ht, Hc, Ha.
        specialize (Ht ltac:(left)).
        specialize (Hc ltac:(right; left)).
        specialize (Ha ltac:(do 2 right; left)).
        destruct Hcases as [->|[->|[->|[->|[->|[->|[->| ->]]]]]]];
          first [ reflexivity | discriminate Ht | discriminate Hc | discriminate Ha ].
Qed.

(** Colour enabled on top of texture coordinates: the set is 3, colour reads
    enabled and alpha reads as before, disabled. *)
Lemma flags_enable_witness :
  VertexAttribFlags.representable
    (Z.lor VertexAttribFlags.kTextureCoord_Attrib VertexAttribFlags.kColor_Attrib) = true
  ∧ VertexAttribFlags.has
      (Z.lor VertexAttribFlags.kTextureCoord_Attrib VertexAttribFlags.kColor_Attrib)
      VertexAttribFlags.kColor_Attrib = true
  ∧ VertexAttribFlags.has
      (Z.lor VertexAttribFlags.kTextureCoord_Attrib VertexAttribFlags.kColor_Attrib)
      VertexAttribFlags.kAlpha_Attrib
    = VertexAttribFlags.has VertexAttribFlags.kTextureCoord_Attrib
                            VertexAttribFlags.kAlpha_Attrib.
Proof.
  assert (VertexAttribFlags.kColor_Attrib ∈ optional_attribs) as Hc
    by (unfold optional_attribs; right; left).
  assert (VertexAttribFlags.kAlpha_Attrib ∈ optional_attribs) as Ha
    by (unfold optional_attribs; do 2 right; left).
  destruct (proj1 flags_enable VertexAttribFlags.kTextureCoord_Attrib
              VertexAttribFlags.kColor_Attrib) as (Hrep & Hhas & _ & Hothers);
    [reflexivity | exact Hc |].
  split; [exact Hrep|]. split; [exact Hhas|].
  apply Hothers; [exact Ha | discriminate].
Defined.

(** *** Which cells of the payload each member reaches *)

Lemma color_offset_lt mbr : (Glop.FloatColor.offset mbr < 4)%nat.
Proof. destruct mbr; cbn; lia. Qed.

Lemma get_color_member_insert mbr i x (u : list float) :
  length u = 20%nat → (i < 20)%nat →
  Glop.Filter.get_color_member mbr (<[i := x]> u)
  = if decide (Glop.FloatColor.offset mbr = i) then x
    else Glop.Filter.get_color_member mbr u.
Proof.
  intros Hlen Hi. unfold Glop.Filter.get_color_member.
  pose proof (color_offset_lt mbr).
  case_decide as Heq.
  - subst i. apply list_lookup_total_insert_eq. lia.
  - by apply list_lookup_total_insert_ne.
Qed.

Lemma get_matrix_matrix_insert j i x (u : list float) :
  length u = 20%nat → (i < 20)%nat → (j < 16)%nat →
  Glop.Filter.get_matrix_matrix j (<[i := x]> u)
  = if decide (j = i) then Some x else Glop.Filter.get_matrix_matrix j u.
Proof.
  intros Hlen Hi Hj. unfold Glop.Filter.get_matrix_matrix.
  change Glop.Filter.Matrix.matrix_len with 16%nat.
  destruct (Nat.ltb_spec j 16) as [_|]; [|lia].
  case_decide as Heq.
  - subst i. apply list_lookup_insert_eq. lia.
  - by apply list_lookup_insert_ne.
Qed.

Lemma get_matrix_vector_insert j i x (u : list float) :
  length u = 20%nat → (i < 20)%nat → (j < 4)%nat →
  Glop.Filter.get_matrix_vector j (<[i := x]> u)
  = if decide ((16 + j)%nat = i) then Some x else Glop.Filter.get_matrix_vector j u.
Proof.
  intros Hlen Hi Hj. unfold Glop.Filter.get_matrix_vector.
  change Glop.Filter.Matrix.matrix_len with 16%nat.
  change Glop.Filter.Matrix.vector_len with 4%nat.
  destruct (Nat.ltb_spec j 4) as [_|]; [|lia].
  case_decide as Heq.
  - subst i. apply list_lookup_insert_eq. lia.
  - by apply list_lookup_insert_ne.
Qed.

(** X2.  In a 20-cell payload, the element assignments reach exactly these
    cells.  [filter.matrix.matrix[i] = x], for i below 16, is read back at
    entry i, leaves the other matrix entries and the whole vector alone, and
    changes the colour arm in the one member whose offset is i, which exists
    only for i below 4.  [filter.matrix.vector[i] = x], for i below 4, is read
    back at vector entry i and leaves the other vector entries, every matrix
    entry and the whole colour arm alone.  [filter.color.<member> = x] is read
    back at that member and at the matrix entry of the member's offset, and
    leaves the other members, the other matrix entries and the vector
    alone. *)
Theorem filter_element_writes :
  ∀ (u : list float) (x : float),
    length u = 20%nat →
    (∀ i, (i < 16)%nat →
        ∃ u', Glop.Filter.set_matrix_matrix i x u = Some u'
              ∧ length u' = 20%nat
              ∧ (∀ j, (j < 16)%nat →
                   Glop.Filter.get_matrix_matrix j u'
                   = if decide (j = i) then Some x
                     else Glop.Filter.get_matrix_matrix j u)
              ∧ (∀ j, (j < 4)%nat →
                   Glop.Filter.get_matrix_vector j u' = Glop.Filter.get_matrix_vector j u)
              ∧ (∀ mbr,
                   Glop.Filter.get_color_member mbr u'
                   = if decide (Glop.FloatColor.offset mbr = i) then x
                     else Glop.Filter.get_color_member mbr u)
              ∧ ((4 ≤ i)%nat → Glop.Filter.get_color u' = Glop.Filter.get_color u))
    ∧ (∀ i, (i < 4)%nat →
        ∃ u', Glop.Filter.set_matrix_vector i x u = Some u'
              ∧ length u' = 20%nat
              ∧ (∀ j, (j < 4)%nat →
                   Glop.Filter.get_matrix_vector j u'
                   = if decide (j = i) then Some x
                     else Glop.Filter.get_matrix_vector j u)
              ∧ (∀ j, (j < 16)%nat →
                   Glop.Filter.get_matrix_matrix j u' = Glop.Filter.get_matrix_matrix j u)
              ∧ Glop.Filter.get_color u' = Glop.Filter.get_color u)
    ∧ (∀ mbr,
        let u' := Glop.Filter.set_color_member mbr x u in
        length u' = 20%nat
        ∧ (∀ mbr',
             Glop.Filter.get_color_member mbr' u'
             = if decide (Glop.FloatColor.offset mbr' = Glop.FloatColor.offset mbr)
               then x else Glop.Filter.get_color_member mbr' u)
        ∧ (∀ j, (j < 16)%nat →
             Glop.Filter.get_matrix_matrix j u'
             = if decide (j = Glop.FloatColor.offset mbr) then Some x
               else Glop.Filter.get_matrix_matrix j u)
        ∧ (∀ j, (j < 4)%nat →
             Glop.Filter.get_matrix_vector j u' = Glop.Filter.get_matrix_vector j u)).
Proof.
  intros u x Hlen. split; [|split].
  - intros i Hi. exists (<[i := x]> u).
    split; [by apply Filter_set_matrix_matrix_Some|].
    split; [by rewrite length_insert|].
    split; [intros j Hj; apply get_matrix_matrix_insert; lia|].
    split; [|split].
    + intros j Hj. rewrite get_matrix_vector_insert by lia.
      case_decide; [lia | done].
    + intros mbr. apply get_color_member_insert; lia.
    + intros Hge. unfold Glop.Filter.get_color, Glop.FloatColor.load.
      f_equal; apply list_lookup_total_insert_ne; cbn; lia.
  - intros i Hi. exists (<[(16 + i)%nat := x]> u).
    split; [by apply Filter_set_matrix_vector_Some|].
    split; [by rewrite length_insert|].
    split; [|split].
    + intros j Hj. rewrite get_matrix_vector_insert by lia.
      repeat case_decide; first [ done | lia ].
    + intros j Hj. rewrite get_matrix_matrix_insert by lia.
      case_decide; [lia | done].
    + unfold Glop.Filter.get_color, Glop.FloatColor.load.
      f_equal; apply list_lookup_total_insert_ne; cbn; lia.
  - intros mbr u'. subst u'. unfold Glop.Filter.set_color_member, Glop.Filter.t.
    pose proof (color_offset_lt mbr) as Hoff.
    split; [by rewrite length_insert|].
    split; [|split].
    + intros mbr'. by rewrite get_color_member_insert by lia.
    + intros j Hj. rewrite get_matrix_matrix_insert by lia. done.
    + intros j Hj. rewrite get_matrix_vector_insert by lia.
      case_decide; [lia | done].
Qed.

(** In a zeroed payload: [matrix[1] = 1.0] shows as the colour's red and not
    as its alpha; [matrix[5] = 1.0] does not show in the colour; [vector[2] =
    1.0] neither. *)
Lemma filter_element_writes_witness :
  (∃ u', Glop.Filter.set_matrix_matrix 1 f1_0 Glop.Filter.zero = Some u'
         ∧ Glop.Filter.get_color_member Glop.FloatColor.m_r u' = f1_0
         ∧ Glop.Filter.get_color_member Glop.FloatColor.m_a u' = f0_0)
  ∧ (∃ u', Glop.Filter.set_matrix_matrix 5 f1_0 Glop.Filter.zero = Some u'
           ∧ Glop.Filter.get_color u' = Glop.Filter.get_color Glop.Filter.zero)
  ∧ (∃ u', Glop.Filter.set_matrix_vector 2 f1_0 Glop.Filter.zero = Some u'
           ∧ Glop.Filter.get_color u' = Glop.Filter.get_color Glop.Filter.zero).
Proof.
  pose proof (filter_element_writes Glop.Filter.zero f1_0 eq_refl) as (Hm & Hv & _).
  split; [|split].
  - destruct (Hm 1%nat) as (u' & Hw & _ & _ & _ & Hc & _); [lia|].
    exists u'. split; [exact Hw|].
    split; [exact (Hc Glop.FloatColor.m_r) | exact (Hc Glop.FloatColor.m_a)].
  - destruct (Hm 5%nat) as (u' & Hw & _ & _ & _ & _ & Hc); [lia|].
    exists u'. split; [exact Hw|]. apply Hc. lia.
  - destruct (Hv 2%nat) as (u' & Hw & _ & _ & _ & Hc); [lia|].
    exists u'. split; [exact Hw | exact Hc].
Defined.

(** *** Whole-arm assignments, one after the other *)

Lemma set_matrix_set_color m c (u : list float) :
  Glop.Filter.set_matrix m (Glop.Filter.set_color c u) = Glop.Filter.set_matrix m u.
Proof.
  unfold Glop.Filter.set_matrix, Glop.Filter.set_color. f_equal.
  change Glop.Filter.Matrix.size with 20%nat. change Glop.FloatColor.size with 4%nat.
  rewrite drop_app, FloatColor_store_eq. cbn [length drop app].
  by rewrite drop_drop.
Qed.

Lemma set_matrix_set_matrix m m' (u : list float) :
  Glop.Filter.Matrix.wf m' = true →
  Glop.Filter.set_matrix m (Glop.Filter.set_matrix m' u) = Glop.Filter.set_matrix m u.
Proof.
  intros (Hmat & Hvec & _)%Matrix_wf_iff.
  unfold Glop.Filter.set_matrix. f_equal.
  change Glop.Filter.Matrix.size with 20%nat.
  rewrite drop_app_length'; [done|].
  unfold Glop.Filter.Matrix.store. rewrite length_app, Hmat, Hvec. reflexivity.
Qed.

Lemma set_color_set_color c c' (u : list float) :
  Glop.Filter.set_color c (Glop.Filter.set_color c' u) = Glop.Filter.set_color c u.
Proof.
  unfold Glop.Filter.set_color. by f_equal.
Qed.

Lemma get_matrix_set_color_set_matrix c m' (u : list float) :
  Glop.Filter.Matrix.wf m' = true →
  Glop.Filter.get_matrix (Glop.Filter.set_color c (Glop.Filter.set_matrix m' u))
  = Glop.Filter.Matrix.mk
      (Glop.FloatColor.store c ++ drop 4 (Glop.Filter.Matrix.matrix m'))
      (Glop.Filter.Matrix.vector m').
Proof.
  intros (Hmat & Hvec & _)%Matrix_wf_iff. destruct m' as [mat vec]. cbn in Hmat, Hvec.
  do 16 (destruct mat as [|? mat]; [discriminate Hmat|]).
  destruct mat; [|discriminate Hmat].
  do 4 (destruct vec as [|? vec]; [discriminate Hvec|]).
  destruct vec; [|discriminate Hvec].
  reflexivity.
Qed.

(** X3.  Assignments of a whole arm of the payload compose by their extent.
    The matrix arm is the whole union, so an assignment to [filter.matrix]
    erases whatever an earlier assignment to [filter.color] or to
    [filter.matrix] stored: the result is as if only the last one was made.
    The colour arm is the first four cells, so of two colour assignments the
    last one stands, and a colour assigned after a matrix replaces the first
    four matrix entries and keeps the other twelve and the vector. *)
Theorem filter_arm_writes_compose :
  ∀ (g : Glop.t) (m m' : Glop.Filter.Matrix.t) (c c' : Glop.FloatColor.t),
    Glop.writes [Glop.W_fill_filter_color c; Glop.W_fill_filter_matrix m] g
    = Glop.writes [Glop.W_fill_filter_matrix m] g
    ∧ Glop.writes [Glop.W_fill_filter_color c'; Glop.W_fill_filter_color c] g
      = Glop.writes [Glop.W_fill_filter_color c] g
    ∧ (Glop.Filter.Matrix.wf m' = true →
       Glop.writes [Glop.W_fill_filter_matrix m'; Glop.W_fill_filter_matrix m] g
       = Glop.writes [Glop.W_fill_filter_matrix m] g
       ∧ ∃ g', Glop.writes [Glop.W_fill_filter_matrix m'; Glop.W_fill_filter_color c] g
               = Some g'
               ∧ Glop.Filter.get_color (Glop.Fill.filter (Glop.fill g')) = c
               ∧ Glop.Filter.get_matrix (Glop.Fill.filter (Glop.fill g'))
                 = Glop.Filter.Matrix.mk
                     (Glop.FloatColor.store c ++ drop 4 (Glop.Filter.Matrix.matrix m'))
                     (Glop.Filter.Matrix.vector m')).
Proof.
  intros [bo me [pr co fm fi] tr bl] m m' c c'.
  cbn -[Glop.Filter.set_matrix Glop.Filter.set_color
        Glop.Filter.get_matrix Glop.Filter.get_color].
  split; [by rewrite set_matrix_set_color|].
  split; [by rewrite set_color_set_color|].
  intros Hwf. split; [by rewrite set_matrix_set_matrix|].
  eexists. split; [reflexivity|].
  cbn -[Glop.Filter.set_matrix Glop.Filter.set_color
        Glop.Filter.get_matrix Glop.Filter.get_color].
  split; [apply get_set_color | by apply get_matrix_set_color_set_matrix].
Qed.

(** Scenario C's identity matrix, then scenario D's colour: the first matrix
    row becomes the colour, the rest of the identity and the vector stay. *)
Lemma filter_arm_writes_compose_witness :
  ∃ g', Glop.writes [Glop.W_fill_filter_matrix Scenarios.C_matrix;
                     Glop.W_fill_filter_color Scenarios.D_color] Glop.value_init
        = Some g'
        ∧ Glop.Filter.get_matrix (Glop.Fill.filter (Glop.fill g'))
          = Glop.Filter.Matrix.mk
              [ f1_0; f0_5; f0_5; f0_5;
                f0_0; f1_0; f0_0; f0_0;
                f0_0; f0_0; f1_0; f0_0;
                f0_0; f0_0; f0_0; f1_0 ]
              [f0_0; f0_0; f0_0; f0_0].
Proof.
  destruct (proj2 (proj2 (filter_arm_writes_compose Glop.value_init
                            Scenarios.C_matrix Scenarios.C_matrix
                            Scenarios.D_color Scenarios.D_color)) eq_refl)
    as (_ & g' & Hw & _ & Hm).
  exists g'. split; [exact Hw | exact Hm].
Defined.

(** *** Order of assignments *)

(** Two assignments in a row, unfolded, with the payload functions kept. *)
Local Ltac two_writes :=
  cbn -[Glop.Filter.set_matrix Glop.Filter.set_color Glop.Filter.set_color_member
        Glop.Filter.set_matrix_matrix Glop.Filter.set_matrix_vector];
  repeat match goal with
         | |- context [Glop.Filter.set_matrix_matrix ?i ?x ?u] =>
             destruct (Glop.Filter.set_matrix_matrix i x u)
         | |- context [Glop.Filter.set_matrix_vector ?i ?x ?u] =>
             destruct (Glop.Filter.set_matrix_vector i x u)
         end;
  cbn -[Glop.Filter.set_matrix Glop.Filter.set_color Glop.Filter.set_color_member];
  reflexivity.

(** X4.  Assignments to fields of two different sub-records can be made in
    either order, and so can an assignment of the filter mode and a store
    into the payload: both orders are defined on the same descriptors and
    give the same descriptor. *)
Theorem writes_commute :
  ∀ (w1 w2 : Glop.FieldWrite) (g : Glop.t),
    Glop.group_of w1 ≠ Glop.group_of w2
    ∨ ((∃ mode, w1 = Glop.W_fill_filterMode mode) ∧ Glop.writes_filter w2 = true) →
    Glop.writes [w1; w2] g = Glop.writes [w2; w1] g.
Proof.
  intros w1 w2 [bo me [pr co fm fi] tr bl] [Hne | [[mode ->] Hpay]].
  - destruct w1, w2; try (by destruct Hne); clear Hne; two_writes.
  - destruct w2; try discriminate Hpay; two_writes.
Qed.

(** On scenario A: the blend source and a matrix entry, in either order; the
    filter mode and the colour arm, in either order. *)
Lemma writes_commute_witness :
  Glop.writes [Glop.W_blend_src GL_SRC_ALPHA;
               Glop.W_fill_filter_matrix_matrix 5 f1_0] Scenarios.A
  = Glop.writes [Glop.W_fill_filter_matrix_matrix 5 f1_0;
                 Glop.W_blend_src GL_SRC_ALPHA] Scenarios.A
  ∧ Glop.writes [Glop.W_fill_filterMode ProgramDescription.kColorBlend;
                 Glop.W_fill_filter_color Scenarios.D_color] Scenarios.A
    = Glop.writes [Glop.W_fill_filter_color Scenarios.D_color;
                   Glop.W_fill_filterMode ProgramDescription.kColorBlend] Scenarios.A.
Proof.
  split.
  - apply writes_commute. left. discriminate.
  - apply writes_commute. right. split; [by eexists | reflexivity].
Defined.

(** *** Sequences of assignments *)

Lemma write_frame_group w g g' gr :
  Glop.write w g = Some g' → Glop.group_of w ≠ gr → group_unchanged gr g g'.
Proof.
  intros Hw Hne. destruct (write_frame w g g' Hw) as (Hb & Hm & Hf & Ht & Hbl & _).
  destruct gr; cbn; auto.
Qed.

Lemma group_unchanged_trans gr g1 g2 g3 :
  group_unchanged gr g1 g2 → group_unchanged gr g2 g3 → group_unchanged gr g1 g3.
Proof. destruct gr; cbn; congruence. Qed.

Lemma group_unchanged_refl gr g : group_unchanged gr g g.
Proof. by destruct gr. Qed.

Lemma writes_cons w ws g :
  Glop.writes (w :: ws) g = Glop.write w g ≫= Glop.writes ws.
Proof. reflexivity. Qed.

(** X5.  A producer that makes any number of assignments, each of a value of
    the field's type and with subscripts within the arrays, to a well-typed
    descriptor always ends with a descriptor, and that descriptor is well
    typed: every integer within the range of its C type, the payload still 20
    cells, the matrices still 16.  A sub-record that none of the assignments
    belongs to is the same at the end as at the start. *)
Theorem writes_keep_well_typed :
  ∀ (ws : list Glop.FieldWrite) (g : Glop.t),
    Glop.wf g = true →
    forallb Glop.write_ok ws = true →
    ∃ g', Glop.writes ws g = Some g'
          ∧ Glop.wf g' = true
          ∧ ∀ gr, (∀ w, w ∈ ws → Glop.group_of w ≠ gr) → group_unchanged gr g g'.
Proof.
  induction ws as [|w ws IH]; intros g Hg Hok.
  - exists g. split; [reflexivity|]. split; [exact Hg|].
    intros gr _. apply group_unchanged_refl.
  - cbn [forallb] in Hok. apply andb_true_iff in Hok as [Hw Hws].
    destruct (write_total w g Hw) as [g1 Hg1].
    pose proof (write_wf w g g1 Hg Hw Hg1) as Hwf1.
    destruct (IH g1 Hwf1 Hws) as (g' & Hrun & Hwf' & Hframe).
    exists g'. rewrite writes_cons, Hg1. split; [exact Hrun|]. split; [exact Hwf'|].
    intros gr Hgr. eapply group_unchanged_trans.
    + eapply write_frame_group; [exact Hg1|]. apply Hgr. left.
    + apply Hframe. intros w' Hw'. apply Hgr. by right.
Qed.

(** Scenario B's ten assignments on a value-initialized descriptor: defined,
    well typed, and the fill, which none of them touches, is still the
    value-initialized one. *)
Lemma writes_keep_well_typed_witness :
  ∃ g', Glop.writes Scenarios.B_writes Glop.value_init = Some g'
        ∧ Glop.wf g' = true
        ∧ Glop.fill g' = Glop.fill Glop.value_init.
Proof.
  destruct (writes_keep_well_typed Scenarios.B_writes Glop.value_init eq_refl eq_refl)
    as (g' & Hrun & Hwf & Hframe).
  exists g'. split; [exact Hrun|]. split; [exact Hwf|].
  apply (Hframe Glop.g_fill). intros w Hw. unfold Scenarios.B_writes in Hw.
  repeat (apply elem_of_cons in Hw as [->|Hw]); try discriminate.
  by apply elem_of_nil in Hw.
Defined.

(** *** The rule on vertex and index sources *)

(** One assignment to one field.  The rule depends on the four source
    fields only, and if it holds before and after the assignment, the vertex
    buffer handle is 0 after it exactly if it was 0 before, and the vertex
    pointer is null after it exactly if it was null before. *)
Lemma field_write_source_rule :
  ∀ (w : Glop.FieldWrite) (g g' : Glop.t),
    Glop.write w g = Some g' →
    (writes_mesh_source w = false →
     Glop.Mesh.mutually_exclusive (Glop.mesh g')
     = Glop.Mesh.mutually_exclusive (Glop.mesh g))
    ∧ (Glop.Mesh.mutually_exclusive (Glop.mesh g) = true →
       Glop.Mesh.mutually_exclusive (Glop.mesh g') = true →
       (Glop.Mesh.vertexBufferObject (Glop.mesh g') =? 0)
       = (Glop.Mesh.vertexBufferObject (Glop.mesh g) =? 0)
       ∧ (Glop.Mesh.vertices (Glop.mesh g') =? nullptr)
         = (Glop.Mesh.vertices (Glop.mesh g) =? nullptr)).
Proof.
  intros w g g' Hw.
  assert (Glop.group_of w = Glop.g_mesh ∨ Glop.group_of w ≠ Glop.g_mesh)
    as [Hmesh|Hother] by (destruct (Glop.group_of w); first [ by left | by right ]).
  - destruct g as [bo [vf pm vbo ibo vs ixs vc st] fi tr bl].
    destruct w; try discriminate Hmesh; injection Hw as <-;
      (split; [intros Hsrc; first [discriminate Hsrc | reflexivity]|]);
      cbn; unfold Glop.Mesh.mutually_exclusive, Glop.Mesh.exactly_one; cbn;
      try (intros _ _; split; reflexivity).
    + destruct (v =? 0), (vbo =? 0), (vs =? nullptr); cbn; intros H1 H2;
        first [ discriminate H1 | discriminate H2 | split; reflexivity ].
    + destruct (v =? nullptr), (vbo =? 0), (vs =? nullptr); cbn; intros H1 H2;
        first [ discriminate H1 | discriminate H2 | split; reflexivity ].
  - pose proof (write_frame_group w g g' Glop.g_mesh Hw Hother) as Hsame.
    cbn in Hsame. rewrite Hsame. split; [reflexivity|]. intros _ _. split; reflexivity.
Qed.

(** *** Default-initialization followed by the producer's assignments *)

(** X7.  A descriptor default-initialized in storage that held anything well
    typed, and then assigned every mesh field, the program, the colour, the
    filter mode, the whole matrix arm of the payload, the fudging-offset flag
    and both blend factors, is the descriptor made of the assigned values,
    the default bounds and three identity matrices: nothing of the earlier
    contents of the storage is left in it.  If the payload is assigned
    through the colour arm instead, the sixteen cells behind the colour are
    still the earlier contents. *)
Theorem populate_erases_storage :
  ∀ (mem : Glop.t) (m : Glop.Mesh.t) (program : ptr) (color : Glop.FloatColor.t)
    (mode : ProgramDescription.ColorFilterMode) (payload : Glop.Filter.Matrix.t)
    (fudgingOffset : bool) (b : Glop.Blend.t),
    Glop.wf mem = true →
    Glop.writes (populate m program color mode payload fudgingOffset b)
                (Glop.default_init mem)
    = Some (Glop.mk Rect.ctor m
              (Glop.Fill.mk program color mode (Glop.Filter.Matrix.store payload))
              (Glop.Transform.mk Matrix4.identity Matrix4.identity Matrix4.identity
                                 fudgingOffset)
              b)
    ∧ ∃ g', Glop.write (Glop.W_fill_filter_color color) (Glop.default_init mem) = Some g'
            ∧ drop 4 (Glop.Fill.filter (Glop.fill g'))
              = drop 4 (Glop.Fill.filter (Glop.fill mem)).
Proof.
  intros mem m program color mode payload fo b Hmem.
  assert (length (Glop.Fill.filter (Glop.fill mem)) = 20%nat) as Hlen.
  { revert Hmem. unfold Glop.wf, Glop.Fill.wf. rewrite !andb_true_iff.
    intros ((((_ & _) & ((_ & _) & Hfi)) & _) & _).
    by apply Filter_wf_iff in Hfi as [Hlen _]. }
  destruct mem as [bo me [pr co fm fi] [o mv ca f] bl]. cbn in Hlen.
  destruct m, b. split.
  - cbn -[Glop.Filter.set_matrix]. unfold Glop.Filter.set_matrix.
    change Glop.Filter.Matrix.size with 20%nat.
    rewrite drop_ge by lia. by rewrite app_nil_r.
  - eexists. split; [reflexivity|]. reflexivity.
Qed.

(** The stale storage of the examples, populated with scenario B's mesh and
    blend factors and scenario C's filter. *)
Lemma populate_erases_storage_witness :
  Glop.writes (populate (Glop.mesh Scenarios.B) Scenarios.P1 Scenarios.D_color
                        ProgramDescription.kColorMatrix Scenarios.C_matrix false
                        (Glop.blend Scenarios.B))
              (Glop.default_init Scenarios.stale)
  = Some (Glop.mk Rect.ctor (Glop.mesh Scenarios.B)
            (Glop.Fill.mk Scenarios.P1 Scenarios.D_color ProgramDescription.kColorMatrix
                          (Glop.Filter.Matrix.store Scenarios.C_matrix))
            (Glop.Transform.mk Matrix4.identity Matrix4.identity Matrix4.identity false)
            (Glop.blend Scenarios.B)).
Proof.
  apply (proj1 (populate_erases_storage Scenarios.stale (Glop.mesh Scenarios.B)
                  Scenarios.P1 Scenarios.D_color ProgramDescription.kColorMatrix
                  Scenarios.C_matrix false (Glop.blend Scenarios.B) eq_refl)).
Defined.

(** ** Assignments of fields and of whole aggregates, in sequence *)

Lemma assign_total a g : assign_ok a = true → is_Some (assign a g).
Proof. destruct a; cbn; try (by eexists). apply write_total. Qed.

Lemma assign_wf a g g' :
  Glop.wf g = true → assign_ok a = true → assign a g = Some g' → Glop.wf g' = true.
Proof.
  intros Hg Hok Ha. destruct a as [w|v|v|v|v|v]; cbn in Ha, Hok.
  - by eapply write_wf.
  - injection Ha as <-. revert Hg. unfold Glop.wf. cbn. rewrite !andb_true_iff. tauto.
  - injection Ha as <-. revert Hg. unfold Glop.wf. cbn. rewrite !andb_true_iff. tauto.
  - injection Ha as <-. revert Hg. unfold Glop.wf. cbn. rewrite !andb_true_iff. tauto.
  - injection Ha as <-. revert Hg. unfold Glop.wf. cbn. rewrite !andb_true_iff. tauto.
  - injection Ha as <-. by destruct v.
Qed.

Lemma assigns_wf l g :
  Glop.wf g = true → forallb assign_ok l = true →
  ∃ g', assigns l g = Some g' ∧ Glop.wf g' = true.
Proof.
  revert g. induction l as [|a l IH]; intros g Hg Hok.
  - by exists g.
  - cbn [forallb] in Hok. apply andb_true_iff in Hok as [Ha Hl].
    destruct (assign_total a g Ha) as [g1 Hg1].
    destruct (IH g1 (assign_wf a g g1 Hg Ha Hg1) Hl) as (g' & Hrun & Hwf).
    exists g'. split; [|exact Hwf]. cbn [assigns]. by rewrite Hg1.
Qed.

Lemma default_last_cons {A} (d v : A) (l : list A) :
  default d (last (v :: l)) = default v (last l).
Proof.
  destruct l as [|x l]; [reflexivity|]. rewrite last_cons_cons.
  destruct (last (x :: l)) as [y|] eqn:Hlast; [reflexivity|].
  by apply last_None in Hlast.
Qed.

(** A field that every assignment either sets to the value it assigns or
    leaves alone holds, after a sequence of assignments, the value last
    assigned in the sequence, and its initial value if there is none. *)
Lemma assigns_last_assigned {A} (proj : Glop.t → A) (f : Assignment → option A) :
  (∀ a g g', assign a g = Some g' → proj g' = default (proj g) (f a)) →
  ∀ l g g', assigns l g = Some g' → proj g' = default (proj g) (last_assigned f l).
Proof.
  intros Hstep. induction l as [|a l IH]; intros g g' Hrun.
  - by injection Hrun as <-.
  - cbn [assigns] in Hrun.
    destruct (assign a g) as [g1|] eqn:Ha; [|discriminate Hrun]. cbn in Hrun.
    rewrite (IH g1 g' Hrun), (Hstep a g g1 Ha).
    unfold last_assigned. cbn [omap list_omap].
    destruct (f a) as [v|]; cbn [default]; [|reflexivity].
    by rewrite default_last_cons.
Qed.

(** One assignment: what it does to a mesh field is what [write] does if it
    is a field assignment, and the right-hand side's field if it replaces the
    mesh or the descriptor. *)
Local Ltac mesh_field_step :=
  let Ha := fresh "Ha" in
  intros Ha;
  match goal with
  | a : Assignment |- _ =>
      destruct a as [w|v|v|v|v|v]; cbn in Ha;
      [ destruct w; unfold Glop.write in Ha;
        first [ by injection Ha as <-
              | destruct (Glop.Filter.set_matrix_matrix _ _ _); [|done];
                by injection Ha as <-
              | destruct (Glop.Filter.set_matrix_vector _ _ _); [|done];
                by injection Ha as <- ]
      | by injection Ha as <- .. ]
  end.

Lemma assign_primitiveMode a g g' :
  assign a g = Some g' →
  Glop.Mesh.primitiveMode (Glop.mesh g')
  = default (Glop.Mesh.primitiveMode (Glop.mesh g)) (assigned_primitiveMode a).
Proof. mesh_field_step. Qed.

Lemma assign_vertexCount a g g' :
  assign a g = Some g' →
  Glop.Mesh.vertexCount (Glop.mesh g')
  = default (Glop.Mesh.vertexCount (Glop.mesh g)) (assigned_vertexCount a).
Proof. mesh_field_step. Qed.

(** C7, as the code has it.  [primitiveMode] is a [GLuint].  It is 0
    ([GL_POINTS]) in a value-initialized descriptor.  An assignment of any
    32-bit value to it is defined and the field then holds that value.
    Through any sequence of assignments, to this field, to any other field,
    to a whole sub-record or to the whole descriptor, the field holds the
    value that was last assigned to it, directly or as part of the mesh or
    descriptor on a right-hand side, and its initial value if the sequence
    assigns none; a sequence of well-typed assignments to a well-typed
    descriptor is defined and ends well typed.  The mode of the resulting
    descriptor is one of the two supported ones, [GL_TRIANGLES] and
    [GL_TRIANGLE_STRIP], exactly when that last assigned value is. *)
Theorem primitive_mode_holds_assigned :
  Glop.Mesh.primitiveMode (Glop.mesh Glop.value_init) = GL_POINTS
  ∧ (∀ (g : Glop.t) (v : GLuint),
        Glop.wf g = true → is_uint32 v = true →
        ∃ g', Glop.write (Glop.W_mesh_primitiveMode v) g = Some g'
              ∧ Glop.wf g' = true
              ∧ Glop.Mesh.primitiveMode (Glop.mesh g') = v
              ∧ (Glop.Mesh.supported_primitiveMode (Glop.mesh g') = true
                 ↔ v = GL_TRIANGLES ∨ v = GL_TRIANGLE_STRIP))
  ∧ (∀ (l : list Assignment) (g g' : Glop.t),
        assigns l g = Some g' →
        Glop.Mesh.primitiveMode (Glop.mesh g')
        = default (Glop.Mesh.primitiveMode (Glop.mesh g))
                  (last_assigned assigned_primitiveMode l)
        ∧ (Glop.Mesh.supported_primitiveMode (Glop.mesh g') = true
           ↔ default (Glop.Mesh.primitiveMode (Glop.mesh g))
                     (last_assigned assigned_primitiveMode l) = GL_TRIANGLES
             ∨ default (Glop.Mesh.primitiveMode (Glop.mesh g))
                       (last_assigned assigned_primitiveMode l) = GL_TRIANGLE_STRIP))
  ∧ (∀ (l : list Assignment) (g : Glop.t),
        Glop.wf g = true → forallb assign_ok l = true →
        ∃ g', assigns l g = Some g' ∧ Glop.wf g' = true).
Proof.
  split; [reflexivity|]. split; [|split].
  - intros g v Hg Hv. eexists.
    split; [apply write_primitiveMode|]. split; [|split; [reflexivity|]].
    + eapply write_wf; [exact Hg| |apply write_primitiveMode]. exact Hv.
    + apply supported_primitiveMode_iff.
  - intros l g g' Hrun.
    pose proof (assigns_last_assigned (λ x, Glop.Mesh.primitiveMode (Glop.mesh x))
                  assigned_primitiveMode assign_primitiveMode l g g' Hrun) as Hlast.
    cbn beta in Hlast. split; [exact Hlast|].
    rewrite supported_primitiveMode_iff, Hlast. done.
  - apply assigns_wf.
Qed.

(** On a value-initialized descriptor.  The strip mode assigned first and
    followed by assignments to the vertex flags, the vertex count and the
    whole fill is still the mode at the end, and it is supported.  Mode 6
    followed by an assignment of scenario A's whole mesh ends as scenario A's
    mode, [GL_TRIANGLES].  If no assignment gives the field a value, the mode
    is still [GL_POINTS], which is not supported. *)
Lemma primitive_mode_holds_assigned_witness :
  (∃ g', assigns [ A_field (Glop.W_mesh_primitiveMode GL_TRIANGLE_STRIP);
                   A_field (Glop.W_mesh_vertexFlags
                              VertexAttribFlags.kTextureCoord_Attrib);
                   A_field (Glop.W_mesh_vertexCount 6);
                   A_fill (Glop.fill Scenarios.D) ] Glop.value_init = Some g'
         ∧ Glop.wf g' = true
         ∧ Glop.Mesh.primitiveMode (Glop.mesh g') = GL_TRIANGLE_STRIP
         ∧ Glop.Mesh.supported_primitiveMode (Glop.mesh g') = true)
  ∧ (∃ g', assigns [ A_field (Glop.W_mesh_primitiveMode 6);
                     A_mesh (Glop.mesh Scenarios.A) ] Glop.value_init = Some g'
           ∧ Glop.Mesh.primitiveMode (Glop.mesh g') = GL_TRIANGLES)
  ∧ (∃ g', assigns [ A_field (Glop.W_mesh_vertexCount 6);
                     A_blend (Glop.blend Scenarios.B) ] Glop.value_init = Some g'
           ∧ Glop.Mesh.primitiveMode (Glop.mesh g') = GL_POINTS
           ∧ ¬ Glop.Mesh.supported_primitiveMode (Glop.mesh g') = true).
Proof.
  pose proof primitive_mode_holds_assigned as (_ & _ & Hlast & Hdef).
  split; [|split].
  - destruct (Hdef [ A_field (Glop.W_mesh_primitiveMode GL_TRIANGLE_STRIP);
                     A_field (Glop.W_mesh_vertexFlags
                                VertexAttribFlags.kTextureCoord_Attrib);
                     A_field (Glop.W_mesh_vertexCount 6);
                     A_fill (Glop.fill Scenarios.D) ] Glop.value_init)
      as (g' & Hrun & Hwf); [reflexivity | reflexivity |].
    destruct (Hlast _ _ _ Hrun) as [Hpm Hsup].
    exists g'. split; [exact Hrun|]. split; [exact Hwf|]. split; [exact Hpm|].
    apply Hsup. right. reflexivity.
  - destruct (Hdef [ A_field (Glop.W_mesh_primitiveMode 6);
                     A_mesh (Glop.mesh Scenarios.A) ] Glop.value_init)
      as (g' & Hrun & _); [reflexivity | reflexivity |].
    destruct (Hlast _ _ _ Hrun) as [Hpm _].
    exists g'. split; [exact Hrun | exact Hpm].
  - destruct (Hdef [ A_field (Glop.W_mesh_vertexCount 6);
                     A_blend (Glop.blend Scenarios.B) ] Glop.value_init)
      as (g' & Hrun & _); [reflexivity | reflexivity |].
    destruct (Hlast _ _ _ Hrun) as [Hpm Hsup].
    exists g'. split; [exact Hrun|]. split; [exact Hpm|].
    intros Hyes. apply Hsup in Hyes as [Hyes|Hyes]; discriminate Hyes.
Defined.

(** C8, as the code has it.  [vertexCount] is an [int].  It is 0 in a
    value-initialized descriptor.  An assignment of any [int] to it, negative
    ones included, is defined and the field then holds that value.  Through
    any sequence of assignments, to this field, to any other field, to a
    whole sub-record or to the whole descriptor, the field holds the value
    that was last assigned to it, directly or as part of the mesh or
    descriptor on a right-hand side, and its initial value if the sequence
    assigns none; a sequence of well-typed assignments to a well-typed
    descriptor is defined and ends well typed.  The count of the resulting
    descriptor is non-negative exactly when that last assigned value is. *)
Theorem vertex_count_holds_assigned :
  Glop.Mesh.vertexCount (Glop.mesh Glop.value_init) = 0
  ∧ (∀ (g : Glop.t) (n : int),
        Glop.wf g = true → is_int32 n = true →
        ∃ g', Glop.write (Glop.W_mesh_vertexCount n) g = Some g'
              ∧ Glop.wf g' = true
              ∧ Glop.Mesh.vertexCount (Glop.mesh g') = n
              ∧ (0 ≤ Glop.Mesh.vertexCount (Glop.mesh g') ↔ 0 ≤ n))
  ∧ (∀ (l : list Assignment) (g g' : Glop.t),
        assigns l g = Some g' →
        Glop.Mesh.vertexCount (Glop.mesh g')
        = default (Glop.Mesh.vertexCount (Glop.mesh g))
                  (last_assigned assigned_vertexCount l)
        ∧ (0 ≤ Glop.Mesh.vertexCount (Glop.mesh g')
           ↔ 0 ≤ default (Glop.Mesh.vertexCount (Glop.mesh g))
                         (last_assigned assigned_vertexCount l)))
  ∧ (∀ (l : list Assignment) (g : Glop.t),
        Glop.wf g = true → forallb assign_ok l = true →
        ∃ g', assigns l g = Some g' ∧ Glop.wf g' = true).
Proof.
  split; [reflexivity|]. split; [|split].
  - intros g n Hg Hn. eexists.
    split; [apply write_vertexCount|]. split; [|split; reflexivity].
    eapply write_wf; [exact Hg| |apply write_vertexCount]. exact Hn.
  - intros l g g' Hrun.
    pose proof (assigns_last_assigned (λ x, Glop.Mesh.vertexCount (Glop.mesh x))
                  assigned_vertexCount assign_vertexCount l g g' Hrun) as Hlast.
    cbn beta in Hlast. split; [exact Hlast|]. by rewrite Hlast.
  - apply assigns_wf.
Qed.

(** On a value-initialized descriptor.  Three vertices assigned first and
    followed by assignments to the primitive mode, the stride and the whole
    transform are still the count at the end.  A count of -1 followed by an
    assignment of the whole of scenario B ends as scenario B's count, 6.  A
    count of 3 followed by -1 ends negative. *)
Lemma vertex_count_holds_assigned_witness :
  (∃ g', assigns [ A_field (Glop.W_mesh_vertexCount 3);
                   A_field (Glop.W_mesh_primitiveMode GL_TRIANGLES);
                   A_field (Glop.W_mesh_stride 8);
                   A_transform (Glop.transform Scenarios.A) ] Glop.value_init = Some g'
         ∧ Glop.wf g' = true
         ∧ Glop.Mesh.vertexCount (Glop.mesh g') = 3
         ∧ 0 ≤ Glop.Mesh.vertexCount (Glop.mesh g'))
  ∧ (∃ g', assigns [ A_field (Glop.W_mesh_vertexCount (-1));
                     A_glop Scenarios.B ] Glop.value_init = Some g'
           ∧ Glop.Mesh.vertexCount (Glop.mesh g') = 6)
  ∧ (∃ g', assigns [ A_field (Glop.W_mesh_vertexCount 3);
                     A_field (Glop.W_mesh_vertexCount (-1)) ] Glop.value_init = Some g'
           ∧ ¬ 0 ≤ Glop.Mesh.vertexCount (Glop.mesh g')).
Proof.
  pose proof vertex_count_holds_assigned as (_ & _ & Hlast & Hdef).
  split; [|split].
  - destruct (Hdef [ A_field (Glop.W_mesh_vertexCount 3);
                     A_field (Glop.W_mesh_primitiveMode GL_TRIANGLES);
                     A_field (Glop.W_mesh_stride 8);
                     A_transform (Glop.transform Scenarios.A) ] Glop.value_init)
      as (g' & Hrun & Hwf); [reflexivity | reflexivity |].
    destruct (Hlast _ _ _ Hrun) as [Hvc Hsign].
    exists g'. split; [exact Hrun|]. split; [exact Hwf|]. split; [exact Hvc|].
    apply Hsign. cbn. lia.
  - destruct (Hdef [ A_field (Glop.W_mesh_vertexCount (-1));
                     A_glop Scenarios.B ] Glop.value_init)
      as (g' & Hrun & _); [reflexivity | reflexivity |].
    destruct (Hlast _ _ _ Hrun) as [Hvc _].
    exists g'. split; [exact Hrun | exact Hvc].
  - destruct (Hdef [ A_field (Glop.W_mesh_vertexCount 3);
                     A_field (Glop.W_mesh_vertexCount (-1)) ] Glop.value_init)
      as (g' & Hrun & _); [reflexivity | reflexivity |].
    destruct (Hlast _ _ _ Hrun) as [_ Hsign].
    exists g'. split; [exact Hrun|].
    intros Hpos. apply Hsign in Hpos. cbn in Hpos. lia.
Defined.

(** X6.  The rule of the struct's comment, one source per channel and the
    index channel possibly without one, depends on four fields only: an
    assignment that stores into none of them, whether to a field or to a
    whole fill, transform or blend, leaves the rule holding or failing as
    before.  An assignment to a single field cannot move the vertex channel
    from a buffer object to client memory, or back, between two descriptors
    that both obey the rule: the vertex buffer handle is 0 after it exactly if
    it was 0 before, and the vertex pointer is null after it exactly if it was
    null before.  An assignment of a whole mesh or a whole descriptor is not
    so bound: it replaces the four source fields together by those of its
    right-hand side, whatever the left-hand side held. *)
Theorem mesh_source_rule_assignments :
  (∀ (a : Assignment) (g g' : Glop.t),
      assign a g = Some g' →
      assigns_mesh_source a = false →
      Glop.Mesh.mutually_exclusive (Glop.mesh g')
      = Glop.Mesh.mutually_exclusive (Glop.mesh g))
  ∧ (∀ (w : Glop.FieldWrite) (g g' : Glop.t),
      assign (A_field w) g = Some g' →
      Glop.Mesh.mutually_exclusive (Glop.mesh g) = true →
      Glop.Mesh.mutually_exclusive (Glop.mesh g') = true →
      (Glop.Mesh.vertexBufferObject (Glop.mesh g') =? 0)
      = (Glop.Mesh.vertexBufferObject (Glop.mesh g) =? 0)
      ∧ (Glop.Mesh.vertices (Glop.mesh g') =? nullptr)
        = (Glop.Mesh.vertices (Glop.mesh g) =? nullptr))
  ∧ (∀ (m : Glop.Mesh.t) (g : Glop.t),
      ∃ g', assign (A_mesh m) g = Some g' ∧ Glop.mesh g' = m)
  ∧ (∀ (o g : Glop.t),
      ∃ g', assign (A_glop o) g = Some g' ∧ Glop.mesh g' = Glop.mesh o).
Proof.
  split; [|split; [|split]].
  - intros a g g' Ha Hsrc. destruct a as [w|v|v|v|v|v]; cbn in Ha, Hsrc;
      first [ discriminate Hsrc | by injection Ha as <- | idtac ].
    by apply (proj1 (field_write_source_rule w g g' Ha)).
  - intros w g g' Ha. apply (proj2 (field_write_source_rule w g g' Ha)).
  - intros m g. by eexists.
  - intros o g. by eexists.
Qed.

(** Scenario B draws from buffer object 17 and obeys the rule.  Assigning a
    whole fill leaves the rule as it was.  Replacing the handle by 18 keeps the
    rule, and the vertex pointer is null after it as before.  Assigning
    scenario A's whole mesh gives a descriptor that obeys the rule and draws
    from client memory: the handle is 0 after it and was not before. *)
Lemma mesh_source_rule_assignments_witness :
  (∃ g', assign (A_fill (Glop.fill Scenarios.D)) Scenarios.B = Some g'
         ∧ Glop.Mesh.mutually_exclusive (Glop.mesh g')
           = Glop.Mesh.mutually_exclusive (Glop.mesh Scenarios.B))
  ∧ (∃ g', assign (A_field (Glop.W_mesh_vertexBufferObject 18)) Scenarios.B = Some g'
           ∧ (Glop.Mesh.vertices (Glop.mesh g') =? nullptr)
             = (Glop.Mesh.vertices (Glop.mesh Scenarios.B) =? nullptr))
  ∧ (Glop.Mesh.mutually_exclusive (Glop.mesh Scenarios.B) = true
     ∧ ∃ g', assign (A_mesh (Glop.mesh Scenarios.A)) Scenarios.B = Some g'
             ∧ Glop.Mesh.mutually_exclusive (Glop.mesh g') = true
             ∧ (Glop.Mesh.vertexBufferObject (Glop.mesh g') =? 0)
               ≠ (Glop.Mesh.vertexBufferObject (Glop.mesh Scenarios.B) =? 0)).
Proof.
  pose proof mesh_source_rule_assignments as (Hframe & Hfield & Hmesh & _).
  split; [|split].
  - eexists. split; [reflexivity|].
    apply (Hframe (A_fill (Glop.fill Scenarios.D)) Scenarios.B _ eq_refl).
    reflexivity.
  - eexists. split; [reflexivity|].
    apply (Hfield (Glop.W_mesh_vertexBufferObject 18) Scenarios.B _ eq_refl);
      reflexivity.
  - split; [reflexivity|].
    destruct (Hmesh (Glop.mesh Scenarios.A) Scenarios.B) as (g' & Ha & Heq).
    exists g'. split; [exact Ha|]. rewrite Heq. split; [reflexivity|]. discriminate.
Defined.
